(** * Transcript lifecycle, dual persistence and read-through cache

    A shallow embedding of the transcript-handling code of the speech-to-text
    application, and the properties of it that the specification states.

    Definitions:
    - [JS]                 the string and array primitives the code relies on;
    - [LocalStore]         services/transcriptService.ts, the store kept in
                           localStorage, and formatDate of TrashManagement.tsx;
    - [Remote]             the tables of supabase/migrations/schema.sql with
                           their row-level policies;
    - [TranscriptService]  services/transcript-service.ts, the uncached
                           service over the hosted store;
    - [SaveRoute]          app/api/save-transcript/route.ts, the save endpoint;
    - [Recorder]           components/SpeechToText.tsx: saveToServer, its
                           retry loop and the helpers it calls;
    - [CachedService]      the transcript service that keeps transcriptCache:
                           getTranscript, deleteTranscript, clearExpiredCache.

    Properties, in the modules named after these with the suffix Facts, and in
    [ValidationFacts] and [OwnershipFacts].

    Times are integers (milliseconds since the epoch), as [Date.now()] returns
    them; an ISO timestamp string is represented by the instant it denotes.
    Every reading of the clock, every answer of the network and of the store
    is an input of the function that makes it. *)

From Stdlib Require Import ZArith Lia Ascii String.
From stdpp Require Import base tactics option list strings gmap pretty.

Local Open Scope string_scope.

(** ** JavaScript primitives *)

Module JS.

(** Code units that [String.prototype.trim] removes, among the code units
    below 256 that a [string] of this development holds: TAB, LF, VT, FF, CR,
    SPACE and NBSP. *)
Definition isWhiteSpace (c : ascii) : bool :=
  let n := nat_of_ascii c in
  (Nat.leb 9 n && Nat.leb n 13) || Nat.eqb n 32 || Nat.eqb n 160.

Fixpoint trimStart (s : string) : string :=
  match s with
  | EmptyString => EmptyString
  | String c s' => if isWhiteSpace c then trimStart s' else s
  end.

Fixpoint trimEnd (s : string) : string :=
  match s with
  | EmptyString => EmptyString
  | String c s' =>
      let r := trimEnd s' in
      if String.eqb r "" && isWhiteSpace c then "" else String c r
  end.

Definition trim (s : string) : string := trimEnd (trimStart s).

(** Truthiness of a string: every string but the empty one. *)
Definition truthy (s : string) : bool := negb (String.eqb s "").

(** Truthiness of a possibly absent string ([undefined] and [null] are falsy). *)
Definition truthy_opt (o : option string) : bool :=
  match o with
  | Some s => truthy s
  | None => false
  end.

(** [a || b] on possibly absent strings. *)
Definition or_else (o : option string) (d : string) : string :=
  match o with
  | Some s => if truthy s then s else d
  | None => d
  end.

(** [s.includes(sub)] *)
Fixpoint includes (s sub : string) : bool :=
  String.prefix sub s ||
  match s with
  | EmptyString => false
  | String _ s' => includes s' sub
  end.

(** [l.findIndex(p)], with [None] for -1. *)
Fixpoint findIndex {A} (p : A -> bool) (l : list A) : option nat :=
  match l with
  | [] => None
  | x :: l' => if p x then Some 0 else S <$> findIndex p l'
  end.

End JS.

(** ** The local store (services/transcriptService.ts)

    The value under the key ['savedTranscripts'] is always written by this
    service as the JSON of an array of records, and read back as such:
    [JSON.parse] after [JSON.stringify] is the identity on these records, and
    [getItem] and [setItem] are taken not to throw, so the [catch] clauses of
    the functions are not entered. *)

Module LocalStore.
Import JS.

Record SavedTranscript := mkSavedTranscript {
  id : string;
  text : string;
  timestamp : Z;
  deletedAt : option Z;
  language : option string;
  userId : option string
}.

(** [{...t, text: newText}] *)
Definition with_text (newText : string) (t : SavedTranscript) : SavedTranscript :=
  mkSavedTranscript (id t) newText (timestamp t) (deletedAt t) (language t) (userId t).

(** [{...t, deletedAt: d}], and the object without the property for [None]. *)
Definition with_deletedAt (d : option Z) (t : SavedTranscript) : SavedTranscript :=
  mkSavedTranscript (id t) (text t) (timestamp t) d (language t) (userId t).

(** The browser's localStorage, restricted to the key ['savedTranscripts'].
    [stored] is the parsed JSON array under the key ([None] when the key is
    absent); [setItemCalls] counts the writes performed so far. *)
Record localStorage := mkLocalStorage {
  stored : option (list SavedTranscript);
  setItemCalls : nat
}.

Definition setItem (v : list SavedTranscript) (ls : localStorage) : localStorage :=
  mkLocalStorage (Some v) (S (setItemCalls ls)).

(** [json ? JSON.parse(json) : []] *)
Definition parsed (ls : localStorage) : list SavedTranscript :=
  match stored ls with
  | Some l => l
  | None => []
  end.

(** [t.userId === userId] *)
Definition ownedBy (u : option string) (t : SavedTranscript) : bool :=
  bool_decide (userId t = u).

(** A [deletedAt] timestamp is a non-empty string, hence truthy when present. *)
Definition isTrashed (t : SavedTranscript) : bool :=
  match deletedAt t with
  | Some _ => true
  | None => false
  end.

Definition getAllTranscripts (u : option string) (ls : localStorage) : list SavedTranscript :=
  let transcripts := parsed ls in
  if truthy_opt u then List.filter (ownedBy u) transcripts else transcripts.

Definition getSavedTranscripts (u : option string) (ls : localStorage) : list SavedTranscript :=
  List.filter
    (fun t => if isTrashed t then false
              else if truthy_opt u then ownedBy u t else true)
    (parsed ls).

Definition getTrashTranscripts (u : option string) (ls : localStorage) : list SavedTranscript :=
  List.filter
    (fun t => if negb (isTrashed t) then false
              else if truthy_opt u then ownedBy u t else true)
    (parsed ls).

(** [storeTranscriptLocally]; [nowId] and [nowTs] are the readings of
    [Date.now()] and [new Date()]. *)
Definition storeTranscriptLocally (nowId nowTs : Z) (transcript : string)
    (lang : option string) (u : option string) (ls : localStorage) : localStorage :=
  let existing := parsed ls in
  let newTranscript :=
    mkSavedTranscript (pretty nowId) transcript nowTs None
                      (Some (default "en-US" lang)) u in
  setItem (existing ++ [newTranscript]) ls.

Definition storeTranscriptWithMetadata (t : SavedTranscript) (ls : localStorage)
    : localStorage :=
  setItem (parsed ls ++ [t]) ls.

Definition hasId (i : string) (t : SavedTranscript) : bool := String.eqb (id t) i.

Definition updateTranscript (i newText : string) (ls : localStorage)
    : bool * localStorage :=
  let transcripts := getAllTranscripts None ls in
  match findIndex (hasId i) transcripts with
  | None => (false, ls)
  | Some index =>
      (true, setItem (alter (with_text newText) index transcripts) ls)
  end.

Definition moveToTrash (now : Z) (i : string) (ls : localStorage)
    : bool * localStorage :=
  let transcripts := getAllTranscripts None ls in
  match findIndex (hasId i) transcripts with
  | None => (false, ls)
  | Some index =>
      (true, setItem (alter (with_deletedAt (Some now)) index transcripts) ls)
  end.

Definition restoreFromTrash (i : string) (ls : localStorage) : bool * localStorage :=
  let transcripts := getAllTranscripts None ls in
  match findIndex (hasId i) transcripts with
  | None => (false, ls)
  | Some index =>
      (true, setItem (alter (with_deletedAt None) index transcripts) ls)
  end.

Definition permanentlyDelete (i : string) (ls : localStorage) : bool * localStorage :=
  let transcripts := getAllTranscripts None ls in
  let filteredTranscripts := List.filter (fun t => negb (hasId i t)) transcripts in
  if Nat.eqb (length filteredTranscripts) (length transcripts) then (false, ls)
  else (true, setItem filteredTranscripts ls).

Definition emptyTrash (ls : localStorage) : bool * localStorage :=
  let transcripts := getAllTranscripts None ls in
  let remainingTranscripts := List.filter (fun t => negb (isTrashed t)) transcripts in
  (true, setItem remainingTranscripts ls).

(** TrashManagement.tsx, [formatDate]: whole days since [date] and the
    displayed number of days left of the 30. *)
Definition msPerDay : Z := 1000 * 60 * 60 * 24.

Definition daysAgo (now date : Z) : Z := (now - date) / msPerDay.

Definition daysLeft (now date : Z) : Z := 30 - daysAgo now date.

(** The deletion instant of the first stored record with id [i]. *)
Definition deletedAtOf (i : string) (ls : localStorage) : option (option Z) :=
  deletedAt <$> List.find (hasId i) (parsed ls).

(** [getTranscriptById]: [transcripts.find(t => t.id === id) || null] over
    [getAllTranscripts(userId)], trashed records included. *)
Definition getTranscriptById (i : string) (u : option string) (ls : localStorage)
    : option SavedTranscript :=
  List.find (hasId i) (getAllTranscripts u ls).

End LocalStore.

(** ** The hosted store (supabase/migrations/schema.sql)

    Two tables, [transcripts] and [transcript_contents], under row-level
    security. A statement runs on behalf of the session's user ([auth.uid()]),
    sees only the rows its policy's USING clause admits, and answers with
    data or with an error object; the client library does not throw. *)

Module Remote.
Import JS.

Record PgError := mkPgError { code : string; message : string }.

Record User := mkUser { uid : string; email : string }.

(** A row of [transcripts]; [tid] is the column [id], [lang] the column
    [language] added by the second migration. *)
Record TranscriptRow := mkTranscriptRow {
  tid : string;
  user_id : string;
  title : string;
  is_deleted : bool;
  created_at : Z;
  updated_at : Z;
  lang : string
}.

(** A row of [transcript_contents]; [cid] is the column [id]. *)
Record ContentRow := mkContentRow {
  cid : string;
  transcript_id : string;
  content : string;
  content_created_at : Z
}.

(** The tables, and the number of statements received so far. *)
Record Db := mkDb {
  transcripts : list TranscriptRow;
  transcript_contents : list ContentRow;
  requests : nat
}.

(** What surrounds a call: the session ([supabase.auth.getUser()] answers an
    error or the signed-in user, if any), and for the n-th statement the store
    receives: the fault injected into it, if any (a network or server failure:
    the statement answers that error and changes nothing), the value of
    [uuid_generate_v4()] and the value of [NOW()]. *)
Record Env := mkEnv {
  session : PgError + option User;
  faults : nat -> option PgError;
  uuid : nat -> string;
  now : nat -> Z
}.

(** [auth.uid()] *)
Definition auth_uid (env : Env) : option string :=
  match session env with
  | inr (Some u) => Some (uid u)
  | _ => None
  end.

Definition tick (db : Db) : Db :=
  mkDb (transcripts db) (transcript_contents db) (S (requests db)).

(** One statement: counted, and answered by the injected fault if there is one. *)
Definition statement {A} (env : Env) (run : Db -> Db * (PgError + A)) (db : Db)
    : Db * (PgError + A) :=
  match faults env (requests db) with
  | Some e => (tick db, inl e)
  | None => run (tick db)
  end.

Definition rls_violation : PgError :=
  mkPgError "42501" "new row violates row-level security policy".

Definition unique_violation : PgError :=
  mkPgError "23505" "duplicate key value violates unique constraint".

Definition not_single_row : PgError :=
  mkPgError "PGRST116" "JSON object requested, multiple (or no) rows returned".

(** USING (auth.uid() = user_id) *)
Definition owns (env : Env) (r : TranscriptRow) : bool :=
  bool_decide (auth_uid env = Some (user_id r)).

(** USING (EXISTS (SELECT 1 FROM transcripts WHERE transcripts.id =
    transcript_contents.transcript_id AND transcripts.user_id = auth.uid())) *)
Definition owns_content (env : Env) (db : Db) (c : ContentRow) : bool :=
  existsb (fun r => String.eqb (tid r) (transcript_id c) && owns env r) (transcripts db).

(** [.single()] *)
Definition single {A} (rows : list A) : PgError + A :=
  match rows with
  | [r] => inr r
  | _ => inl not_single_row
  end.

(** [from('transcripts').insert({title, user_id, language}).select('id').single()] *)
Definition insert_transcript (env : Env) (title_ owner language_ : string)
    : Db -> Db * (PgError + string) :=
  statement env (fun db =>
    let n := pred (requests db) in
    let row := mkTranscriptRow (uuid env n) owner title_ false (now env n) (now env n)
                               language_ in
    if negb (owns env row) then (db, inl rls_violation)
    else if existsb (fun r => String.eqb (tid r) (tid row)) (transcripts db)
    then (db, inl unique_violation)
    else (mkDb (transcripts db ++ [row]) (transcript_contents db) (requests db),
          inr (tid row))).

(** [from('transcript_contents').insert({transcript_id, content})] *)
Definition insert_content (env : Env) (transcriptId content_ : string)
    : Db -> Db * (PgError + unit) :=
  statement env (fun db =>
    let n := pred (requests db) in
    let row := mkContentRow (uuid env n) transcriptId content_ (now env n) in
    if negb (owns_content env db row) then (db, inl rls_violation)
    else if existsb (fun c => String.eqb (cid c) (cid row)) (transcript_contents db)
    then (db, inl unique_violation)
    else (mkDb (transcripts db) (transcript_contents db ++ [row]) (requests db),
          inr tt)).

(** [from('transcripts').delete().eq('id', i)], with the optional further
    filter [.eq('user_id', u)]; content rows follow by ON DELETE CASCADE. *)
Definition delete_transcript (env : Env) (i : string) (u : option string)
    : Db -> Db * (PgError + unit) :=
  statement env (fun db =>
    let hit r :=
      String.eqb (tid r) i && owns env r &&
      match u with Some v => String.eqb (user_id r) v | None => true end in
    let kept := List.filter (fun r => negb (hit r)) (transcripts db) in
    let gone c := existsb (fun r => hit r && String.eqb (tid r) (transcript_id c))
                          (transcripts db) in
    (mkDb kept (List.filter (fun c => negb (gone c)) (transcript_contents db))
          (requests db),
     inr tt)).

(** [from('transcript_contents').delete().eq('transcript_id', i)] *)
Definition delete_contents (env : Env) (i : string) : Db -> Db * (PgError + unit) :=
  statement env (fun db =>
    let hit c := String.eqb (transcript_id c) i && owns_content env db c in
    (mkDb (transcripts db)
          (List.filter (fun c => negb (hit c)) (transcript_contents db))
          (requests db),
     inr tt)).

(** [from('transcripts').update(...).eq('id', i)]; [change] sets the columns. *)
Definition update_transcript (env : Env) (i : string)
    (change : TranscriptRow -> TranscriptRow) : Db -> Db * (PgError + unit) :=
  statement env (fun db =>
    (mkDb (map (fun r => if String.eqb (tid r) i && owns env r then change r else r)
               (transcripts db))
          (transcript_contents db) (requests db),
     inr tt)).

(** [from('transcripts').select('*').eq('id', i).single()] *)
Definition select_transcript (env : Env) (i : string)
    : Db -> Db * (PgError + TranscriptRow) :=
  statement env (fun db =>
    (db, single (List.filter (fun r => String.eqb (tid r) i && owns env r)
                             (transcripts db)))).

(** [from('transcript_contents').select('content').eq('transcript_id', i).single()] *)
Definition select_content (env : Env) (i : string) : Db -> Db * (PgError + string) :=
  statement env (fun db =>
    (db,
     match single (List.filter
                     (fun c => String.eqb (transcript_id c) i && owns_content env db c)
                     (transcript_contents db)) with
     | inr c => inr (content c)
     | inl e => inl e
     end)).

Definition set_title (t : string) (at_ : Z) (r : TranscriptRow) : TranscriptRow :=
  mkTranscriptRow (tid r) (user_id r) t (is_deleted r) (created_at r) at_ (lang r).

Definition set_is_deleted (b : bool) (at_ : Z) (r : TranscriptRow) : TranscriptRow :=
  mkTranscriptRow (tid r) (user_id r) (title r) b (created_at r) at_ (lang r).

Definition set_updated_at (at_ : Z) (r : TranscriptRow) : TranscriptRow :=
  mkTranscriptRow (tid r) (user_id r) (title r) (is_deleted r) (created_at r) at_ (lang r).

(** Every row with id [i] belongs to someone other than the session's user. *)
Definition foreign (env : Env) (i : string) (db : Db) : Prop :=
  forall r, In r (transcripts db) -> tid r = i -> auth_uid env <> Some (user_id r).

Definition sameTables (db db' : Db) : Prop :=
  transcripts db' = transcripts db /\
  transcript_contents db' = transcript_contents db.

End Remote.

(** ** The uncached remote service (services/transcript-service.ts)

    Each function returns whether the statement answered without an error;
    [at_] is the reading of [new Date()]. *)

Module TranscriptService.
Import JS Remote.

Definition succeeded {A} (r : PgError + A) : bool :=
  match r with
  | inr _ => true
  | inl _ => false
  end.

Definition saveTranscriptContent (env : Env) (at_ : Z) (transcriptId content_ : string)
    (db : Db) : Db * bool :=
  let (db1, _) := update_transcript env transcriptId (set_updated_at at_) db in
  let (db2, r) := insert_content env transcriptId content_ db1 in
  (db2, succeeded r).

Definition updateTranscriptTitle (env : Env) (at_ : Z) (transcriptId title_ : string)
    (db : Db) : Db * bool :=
  let (db1, r) := update_transcript env transcriptId (set_title title_ at_) db in
  (db1, succeeded r).

Definition softDeleteTranscript (env : Env) (at_ : Z) (transcriptId : string)
    (db : Db) : Db * bool :=
  let (db1, r) := update_transcript env transcriptId (set_is_deleted true at_) db in
  (db1, succeeded r).

Definition permanentlyDeleteTranscript (env : Env) (transcriptId : string)
    (db : Db) : Db * bool :=
  let (db1, r) := delete_transcript env transcriptId None db in
  (db1, succeeded r).

Definition restoreTranscript (env : Env) (at_ : Z) (transcriptId : string)
    (db : Db) : Db * bool :=
  let (db1, r) := update_transcript env transcriptId (set_is_deleted false at_) db in
  (db1, succeeded r).

(** The newest of some content rows: the order [created_at] descending with
    [limit(1)]. Among rows of one and the same [created_at] the store fixes no
    order; the one inserted first is taken here. *)
Definition latest (rows : list ContentRow) : option ContentRow :=
  fold_left
    (fun best c =>
       match best with
       | None => Some c
       | Some b => if (content_created_at b <? content_created_at c)%Z then Some c
                   else Some b
       end)
    rows None.

(** [from('transcript_contents').select('content').eq('transcript_id', i)
    .order('created_at', {ascending: false}).limit(1).single()] *)
Definition select_latest_content (env : Env) (i : string)
    : Db -> Db * (PgError + string) :=
  statement env (fun db =>
    (db,
     match latest (List.filter
                     (fun c => String.eqb (transcript_id c) i && owns_content env db c)
                     (transcript_contents db)) with
     | Some c => inr (content c)
     | None => inl not_single_row
     end)).

(** [createTranscript]: [null] without a signed-in user, else the id of the
    row inserted with the title and the column default of the language. *)
Definition createTranscript (env : Env) (title_ : string) (db : Db)
    : Db * option string :=
  match session env with
  | inr (Some user) =>
      match insert_transcript env title_ (uid user) "en-US" db with
      | (db1, inr i) => (db1, Some i)
      | (db1, inl _) => (db1, None)
      end
  | _ => (db, None)
  end.

(** [getTranscript] of this service: the row, or [null] on any error. *)
Definition getTranscript (env : Env) (transcriptId : string) (db : Db)
    : Db * option TranscriptRow :=
  match select_transcript env transcriptId db with
  | (db1, inr row) => (db1, Some row)
  | (db1, inl _) => (db1, None)
  end.

(** [getTranscriptWithContent]: the row with [data?.content || '']. *)
Definition getTranscriptWithContent (env : Env) (transcriptId : string) (db : Db)
    : Db * option (TranscriptRow * string) :=
  match getTranscript env transcriptId db with
  | (db1, None) => (db1, None)
  | (db1, Some transcript) =>
      match select_latest_content env transcriptId db1 with
      | (db2, inr c) => (db2, Some (transcript, c))
      | (db2, inl _) => (db2, Some (transcript, ""))
      end
  end.

End TranscriptService.

(** ** The save endpoint (app/api/save-transcript/route.ts) *)

Module SaveRoute.
Import JS Remote.

(** The parsed JSON body [{transcript, title, userId, language}]; an absent or
    null member is [None]. *)
Record SaveRequest := mkSaveRequest {
  transcript : option string;
  req_title : option string;
  userId : option string;
  language : option string
}.

Inductive Body :=
| ErrorBody (error : string)
| SavedBody (message : string) (transcriptId : string).

Record Response := mkResponse { status : nat; body : Body }.

(** [{success: true, ...}] is sent by the final return only. *)
Definition success (r : Response) : bool :=
  match body r with
  | SavedBody _ _ => true
  | ErrorBody _ => false
  end.

Definition handleApiError (error : PgError) (context : string) : Response :=
  if String.eqb (code error) "42501" then
    mkResponse 403 (ErrorBody "Permission denied. Check your RLS policies.")
  else if includes (message error) "JWT" then
    mkResponse 401 (ErrorBody "Invalid or expired authentication token")
  else
    mkResponse 500
      (ErrorBody ("Failed to " ++ context ++ ": " ++
                  (if truthy (message error) then message error else "Unknown error"))).

Definition POST (env : Env) (req : SaveRequest) (db : Db) : Db * Response :=
  match transcript req with
  | None => (db, mkResponse 400 (ErrorBody "Transcript is required"))
  | Some text =>
  if negb (truthy text) then (db, mkResponse 400 (ErrorBody "Transcript is required"))
  else
  match userId req with
  | None => (db, mkResponse 400 (ErrorBody "User ID is required"))
  | Some owner =>
  if negb (truthy owner) then (db, mkResponse 400 (ErrorBody "User ID is required"))
  else
    match session env with
    | inl userError => (db, handleApiError userError "authenticate user")
    | inr None =>
        (db, mkResponse 401 (ErrorBody "You must be logged in to save transcripts"))
    | inr (Some user) =>
        if negb (String.eqb (uid user) owner) then
          (db, mkResponse 403
                 (ErrorBody "User ID mismatch. You can only create transcripts for your own account."))
        else
          match insert_transcript env (or_else (req_title req) "New Transcript")
                                  owner (or_else (language req) "en-US") db with
          | (db1, inl transcriptError) =>
              (db1, handleApiError transcriptError "create transcript")
          | (db1, inr transcriptId) =>
              match insert_content env transcriptId text db1 with
              | (db2, inl contentError) =>
                  let (db3, _) := delete_transcript env transcriptId None db2 in
                  (db3, handleApiError contentError "save transcript content")
              | (db2, inr _) =>
                  (db2, mkResponse 200
                          (SavedBody "Transcript saved successfully" transcriptId))
              end
          end
    end
  end
  end.

End SaveRoute.

(** ** The recorder's save operation (components/SpeechToText.tsx)

    [saveToServer] with the helpers it calls: [storeLocally] of the component
    and [saveTranscriptToServer], [storeTranscriptLocally] of
    services/transcriptService.ts. The body of a request to the endpoint does
    not enter the model: what the k-th request meets is given by [network]. *)

Module Recorder.
Import JS LocalStore.

Inductive ToastKind := ToastInfo | ToastSuccess | ToastError.

Record Toast := mkToast {
  kind : ToastKind;
  heading : string;
  description : option string
}.

(** The parsed JSON body of a response. *)
Record ResponseData := mkResponseData {
  data_success : bool;
  data_message : option string;
  data_error : option string;
  data_transcriptId : option string
}.

(** What [fetch] and [response.json()] come to: a response with its [ok] flag
    and body, or an exception with its message. *)
Inductive FetchOutcome :=
| Responded (ok : bool) (data : ResponseData)
| Failed (message : string).

(** The value of [saveTranscriptToServer]. *)
Record SaveResult := mkSaveResult {
  success : bool;
  message : option string;
  transcriptId : option string
}.

(** Props and state of the render whose closure runs: [userDetails?.id],
    [selectedLanguage], [currentTranscript], the recogniser's [transcript],
    and the state flag [authError]. *)
Record Render := mkRender {
  userDetailsId : option string;
  selectedLanguage : string;
  currentTranscript : string;
  transcript : string;
  authError : bool
}.

(** What the operation does to the outside, in the order it does it. *)
Inductive Event :=
| Requested                (* a request sent to /api/save-transcript *)
| Waited (ms : Z)          (* a timer awaited *)
| StoredLocally            (* storeTranscriptLocally *)
| Notified (t : Toast).    (* a toast shown *)

(** The world the operation acts on: the local store, the notifications
    shown, the timers awaited, the number of requests sent, the state slots
    [authError] and [serverSaving] as set for the next render, whether the
    transcript under recording was reset, the ids passed to
    [onTranscriptCreated], and the trace of all of it. *)
Record World := mkWorld {
  storage : localStorage;
  toasts : list Toast;
  waits : list Z;
  fetches : nat;
  authErrorSet : bool;
  serverSaving : bool;
  transcriptReset : bool;
  created : list string;
  events : list Event
}.

Record Env := mkEnv {
  network : nat -> FetchOutcome;
  dateNow : Z;
  newDate : Z
}.

Definition with_storage (ls : localStorage) (w : World) : World :=
  mkWorld ls (toasts w) (waits w) (fetches w) (authErrorSet w) (serverSaving w)
          (transcriptReset w) (created w) (events w ++ [StoredLocally]).

Definition toast (t : Toast) (w : World) : World :=
  mkWorld (storage w) (toasts w ++ [t]) (waits w) (fetches w) (authErrorSet w)
          (serverSaving w) (transcriptReset w) (created w) (events w ++ [Notified t]).

(** [await new Promise(resolve => setTimeout(resolve, ms))] *)
Definition sleep (ms : Z) (w : World) : World :=
  mkWorld (storage w) (toasts w) (waits w ++ [ms]) (fetches w) (authErrorSet w)
          (serverSaving w) (transcriptReset w) (created w) (events w ++ [Waited ms]).

Definition fetched (w : World) : World :=
  mkWorld (storage w) (toasts w) (waits w) (S (fetches w)) (authErrorSet w)
          (serverSaving w) (transcriptReset w) (created w) (events w ++ [Requested]).

Definition setAuthError (b : bool) (w : World) : World :=
  mkWorld (storage w) (toasts w) (waits w) (fetches w) b (serverSaving w)
          (transcriptReset w) (created w) (events w).

Definition setServerSaving (b : bool) (w : World) : World :=
  mkWorld (storage w) (toasts w) (waits w) (fetches w) (authErrorSet w) b
          (transcriptReset w) (created w) (events w).

(** [resetTranscript(); setCurrentTranscript('')] *)
Definition clearTranscript (w : World) : World :=
  mkWorld (storage w) (toasts w) (waits w) (fetches w) (authErrorSet w)
          (serverSaving w) true (created w) (events w).

(** [if (onTranscriptCreated && result.transcriptId) onTranscriptCreated(...)] *)
Definition onTranscriptCreated (i : option string) (w : World) : World :=
  match i with
  | Some s =>
      if truthy s then
        mkWorld (storage w) (toasts w) (waits w) (fetches w) (authErrorSet w)
                (serverSaving w) (transcriptReset w) (created w ++ [s]) (events w)
      else w
  | None => w
  end.

(** transcriptService.saveTranscriptToServer: it catches what the request
    throws and returns a result object in every case. *)
Definition saveTranscriptToServer (env : Env) (text : string) (language_ : string)
    (user : option string) (w : World) : SaveResult * World :=
  if negb (truthy_opt user) then
    (mkSaveResult false (Some "User ID is required") None, w)
  else
    match network env (fetches w) with
    | Failed m => (mkSaveResult false (Some m) None, fetched w)
    | Responded ok data =>
        if negb ok then
          (mkSaveResult false
             (Some (or_else (data_error data) "Failed to save transcript")) None,
           fetched w)
        else
          (mkSaveResult (data_success data) (data_message data) (data_transcriptId data),
           with_storage
             (storeTranscriptLocally (dateNow env) (newDate env) text
                                     (Some language_) user (storage w))
             (fetched w))
    end.

(** The component's [storeLocally]. *)
Definition storeLocally (env : Env) (r : Render) (text : string) (w : World) : World :=
  if negb (truthy (trim text)) then w
  else
    clearTranscript
      (with_storage
         (storeTranscriptLocally (dateNow env) (newDate env) text
                                 (Some (selectedLanguage r)) (userDetailsId r) (storage w))
         w).

(** The messages after which the loop gives up at once. *)
Definition isAuthFailure (errorMessage : string) : bool :=
  includes errorMessage "Authentication failed" ||
  includes errorMessage "Invalid authentication token" ||
  includes errorMessage "Auth session missing" ||
  includes errorMessage "You must be logged in".

Definition maxRetries : nat := 2.

(** The message with which a request is turned down: the request threw, or
    the response came without its [ok] flag. *)
Definition rejected (o : FetchOutcome) : option string :=
  match o with
  | Failed m => Some m
  | Responded false data => Some (or_else (data_error data) "Failed to save transcript")
  | Responded true _ => None
  end.

(** [result?.message || 'Unknown error'] for a request turned down with [m]. *)
Definition errorMessageOf (m : string) : string := or_else (Some m) "Unknown error".

(** A request turned down with a message the loop does not take for an
    authentication failure, and one turned down with a message it does. *)
Definition transientFailure (o : FetchOutcome) : Prop :=
  exists m, rejected o = Some m /\ isAuthFailure (errorMessageOf m) = false.

Definition authFailure (o : FetchOutcome) : Prop :=
  exists m, rejected o = Some m /\ isAuthFailure (errorMessageOf m) = true.

(** How the while loop ended: [savedSuccessfully] and [lastError]. *)
Record LoopEnd := mkLoopEnd {
  savedSuccessfully : bool;
  lastError : option string
}.

(** The loop [while (retries <= maxRetries && !savedSuccessfully)]; each
    unit of [fuel] pays for one evaluation of its condition, and [None] is
    running out of it. The service returns a result in every case and the
    callbacks of the success branch are taken not to throw, so the [catch]
    clause of the loop body is not entered. *)
Fixpoint attempts (fuel : nat) (env : Env) (r : Render) (finalText : string)
    (user : string) (retries : nat) (lastError_ : option string) (w : World)
    : option (LoopEnd * World) :=
  match fuel with
  | O => None
  | S fuel' =>
      if negb (Nat.leb retries maxRetries) then Some (mkLoopEnd false lastError_, w)
      else
        let (result, w1) :=
          saveTranscriptToServer env finalText (selectedLanguage r) (Some user) w in
        if success result then
          Some (mkLoopEnd true lastError_,
                onTranscriptCreated (transcriptId result)
                  (toast (mkToast ToastSuccess "Saved to server"
                            (Some "Your transcript has been saved successfully"))
                     (clearTranscript w1)))
        else
          let errorMessage := or_else (message result) "Unknown error" in
          if isAuthFailure errorMessage then
            Some (mkLoopEnd false (Some errorMessage), setAuthError true w1)
          else
            let retries' := S retries in
            let w2 := if Nat.leb retries' maxRetries then sleep 1000 w1 else w1 in
            attempts fuel' env r finalText user retries' (Some errorMessage) w2
  end.

(** [textToSave || currentTranscript || transcript] *)
Definition finalTextOf (r : Render) (textToSave : string) : string :=
  if truthy textToSave then textToSave
  else if truthy (currentTranscript r) then currentTranscript r
  else transcript r.

Definition saveToServer (env : Env) (r : Render) (textToSave : string) (w : World)
    : option World :=
  let finalText := finalTextOf r textToSave in
  if negb (truthy (trim finalText)) then Some w
  else
    let w0 := setServerSaving true w in
    match userDetailsId r with
    | Some user =>
        if truthy user then
          match attempts (S (S maxRetries)) env r finalText user 0 None w0 with
          | None => None
          | Some (loopEnd, w1) =>
              let w2 :=
                if negb (savedSuccessfully loopEnd) && negb (authError r) then
                  toast (mkToast ToastError "Failed to save to server"
                           (Some ("Saved locally instead. Error: " ++
                                  or_else (lastError loopEnd) "Unknown error")))
                    (storeLocally env r finalText w1)
                else w1 in
              Some (setServerSaving false w2)
          end
        else
          Some (setServerSaving false
                  (toast (mkToast ToastInfo "Saved locally"
                            (Some "Log in to save transcripts to your account"))
                     (storeLocally env r finalText w0)))
    | None =>
        Some (setServerSaving false
                (toast (mkToast ToastInfo "Saved locally"
                          (Some "Log in to save transcripts to your account"))
                   (storeLocally env r finalText w0)))
    end.

(** [handleManualSave], up to its call of [saveToServer]; [editedTranscript]
    is the text under edit. *)
Definition handleManualSave (env : Env) (r : Render) (editedTranscript : string)
    (w : World) : option World :=
  if truthy (trim editedTranscript) then
    match saveToServer env r editedTranscript w with
    | Some w1 => Some (clearTranscript w1)
    | None => None
    end
  else Some (toast (mkToast ToastError "Cannot save empty transcript" None) w).

End Recorder.

(** ** The caching transcript service

    The service that keeps the module-level [transcriptCache]. Its cache is
    private to it: the functions of services/transcript-service.ts reach the
    store only. The notification shown before an error is rethrown is left
    out. *)

Module CachedService.
Import JS Remote.

(** [{...transcript, content: content.content}] *)
Record Payload := mkPayload { row : TranscriptRow; payload_content : string }.

Record CacheEntry := mkCacheEntry { data : Payload; timestamp : Z }.

Definition CACHE_TTL : Z := 5 * 60 * 1000.

(** [isCacheExpired(timestamp)], with the reading of [Date.now()] it makes. *)
Definition isCacheExpired (dateNow timestamp_ : Z) : bool :=
  (dateNow - timestamp_ >? CACHE_TTL)%Z.

(** [clearExpiredCache()]: every entry is visited once and tested against the
    reading of the clock made at that visit, [atSweep key]. *)
Definition clearExpiredCache (atSweep : string -> Z) (cache : gmap string CacheEntry)
    : gmap string CacheEntry :=
  filter (fun kv => isCacheExpired (atSweep kv.1) (timestamp kv.2) = false) cache.

(** The readings of [Date.now()] during one call of [getTranscript]: at the
    lookup, when the fetched result is stored, and during the sweep. *)
Record Clock := mkClock {
  atLookup : Z;
  atStore : Z;
  atSweep : string -> Z
}.

Inductive Result (A : Type) :=
| Returned (a : A)
| Thrown (message : string).
Arguments Returned {A} a.
Arguments Thrown {A} message.

Record State := mkState {
  transcriptCache : gmap string CacheEntry;
  db : Db
}.

(** The remote part of [getTranscript]: the two reads, then the insertion
    into the cache and the sweep. *)
Definition fetchTranscript (env : Env) (clk : Clock) (i : string) (st : State)
    : State * Result Payload :=
  match select_transcript env i (db st) with
  | (db1, inl transcriptError) =>
      (mkState (transcriptCache st) db1,
       Thrown ("Failed to fetch transcript: " ++ message transcriptError))
  | (db1, inr transcript) =>
      match select_content env i db1 with
      | (db2, inl contentError) =>
          (mkState (transcriptCache st) db2,
           Thrown ("Failed to fetch transcript content: " ++ message contentError))
      | (db2, inr content_) =>
          let result := mkPayload transcript content_ in
          (mkState
             (clearExpiredCache (atSweep clk)
                (<[i := mkCacheEntry result (atStore clk)]> (transcriptCache st)))
             db2,
           Returned result)
      end
  end.

Definition getTranscript (env : Env) (clk : Clock) (i : string) (st : State)
    : State * Result Payload :=
  match transcriptCache st !! i with
  | Some cached =>
      if negb (isCacheExpired (atLookup clk) (timestamp cached))
      then (st, Returned (data cached))
      else fetchTranscript env clk i st
  | None => fetchTranscript env clk i st
  end.

Definition deleteTranscript (env : Env) (i : string) (st : State) : State * Result bool :=
  match session env with
  | inl userError => (st, Thrown ("Authentication failed: " ++ message userError))
  | inr None => (st, Thrown "You must be logged in to delete transcripts")
  | inr (Some user) =>
      match delete_contents env i (db st) with
      | (db1, inl contentError) =>
          (mkState (transcriptCache st) db1,
           Thrown ("Failed to delete transcript content: " ++ message contentError))
      | (db1, inr _) =>
          match delete_transcript env i (Some (uid user)) db1 with
          | (db2, inl transcriptError) =>
              (mkState (transcriptCache st) db2,
               Thrown ("Failed to delete transcript: " ++ message transcriptError))
          | (db2, inr _) =>
              (mkState (delete i (transcriptCache st)) db2, Returned true)
          end
      end
  end.


End CachedService.

(** ** The endpoint as the recorder's request meets it *)

Module Wire.

(** What [fetch] makes of an answer of the endpoint: [response.ok] holds for
    the statuses 200 to 299, and [response.json()] is the body that
    [NextResponse.json] was given. *)
Definition fetchOutcomeOf (r : SaveRoute.Response) : Recorder.FetchOutcome :=
  Recorder.Responded
    (Nat.leb 200 (SaveRoute.status r) && Nat.leb (SaveRoute.status r) 299)
    match SaveRoute.body r with
    | SaveRoute.ErrorBody e => Recorder.mkResponseData false None (Some e) None
    | SaveRoute.SavedBody m i => Recorder.mkResponseData true (Some m) None (Some i)
    end.

End Wire.

(** ** The request middleware (middleware.ts)

    The decision it takes from the path requested, the signed-in user (if
    any) and the verdict of the optional rate limiter. *)

Module Middleware.
Import JS.

(** The limiter: not configured, failing (its exception is swallowed), or
    giving its verdict. *)
Inductive RateLimit :=
| NotConfigured
| LimiterFailed
| Verdict (success : bool).

Inductive Outcome :=
| TooManyRequests
| Redirect (to : string) (redirectedFrom : option string)
| Next (userHeaders : option (string * string)).

(** [s.startsWith(p)] *)
Definition startsWith (s p : string) : bool := String.prefix p s.

Definition isAccessingProtectedRoutes (pathname : string) : bool :=
  startsWith pathname "/dashboard" ||
  startsWith pathname "/profile" ||
  (startsWith pathname "/transcripts" &&
   negb (startsWith pathname "/transcripts/public")).

Definition isAccessingAuthRoutes (pathname : string) : bool :=
  startsWith pathname "/login" || startsWith pathname "/register".

Definition signedIn (user : option Remote.User) : bool :=
  match user with
  | Some _ => true
  | None => false
  end.

Definition middleware (rate : RateLimit) (pathname : string)
    (user : option Remote.User) : Outcome :=
  match rate with
  | Verdict false => TooManyRequests
  | _ =>
      if String.eqb pathname "/" && signedIn user then Redirect "/dashboard" None
      else if isAccessingProtectedRoutes pathname && negb (signedIn user) then
        Redirect "/login" (Some pathname)
      else if isAccessingAuthRoutes pathname && signedIn user then
        Redirect "/dashboard" None
      else
        Next (match user with
              | Some u => Some (Remote.uid u, Remote.email u)
              | None => None
              end)
  end.

End Middleware.

(** ** The trash view (components/TrashManagement.tsx) with the handlers
    components/SpeechToText.tsx passes to it *)

Module TrashView.
Import JS LocalStore.

Record View := mkView {
  storage : localStorage;
  toasts : list Recorder.Toast;
  selectedIds : list string
}.

Definition notify (k : Recorder.ToastKind) (heading : string) (v : View) : View :=
  mkView (storage v) (toasts v ++ [Recorder.mkToast k heading None]) (selectedIds v).

(** [handleSelect(id, checked)] *)
Definition handleSelect (i : string) (checked : bool) (v : View) : View :=
  mkView (storage v) (toasts v)
         (if checked then selectedIds v ++ [i]
          else List.filter (fun itemId => negb (String.eqb itemId i)) (selectedIds v)).

(** [handleSelectAll(checked)] over the trashed transcripts shown. *)
Definition handleSelectAll (checked : bool) (trashedTranscripts : list SavedTranscript)
    (v : View) : View :=
  mkView (storage v) (toasts v) (if checked then map id trashedTranscripts else []).


(** SpeechToText.tsx, [handlePermanentDeleteTranscript(id)] *)
Definition handlePermanentDeleteTranscript (i : string) (v : View) : View :=
  let (ok, ls) := permanentlyDelete i (storage v) in
  if ok then mkView ls (toasts v) (selectedIds v)
  else notify Recorder.ToastError "Failed to delete transcript"
              (mkView ls (toasts v) (selectedIds v)).

(** [`${n} transcript${n > 1 ? 's' : ''} ${what}`] *)
Definition counted (n : nat) (what : string) : string :=
  pretty n +:+ " transcript" +:+ (if Nat.ltb 1 n then "s" else "") +:+ " " +:+ what.

Definition clearSelection (v : View) : View := mkView (storage v) (toasts v) [].


(** [handlePermanentDeleteSelected]; [confirmed] is the answer to the
    confirmation dialog. *)
Definition handlePermanentDeleteSelected (confirmed : bool) (v : View) : View :=
  match selectedIds v with
  | [] => notify Recorder.ToastError "No items selected" v
  | ids =>
      if negb confirmed then v
      else
        let v1 := fold_left (fun acc i => handlePermanentDeleteTranscript i acc) ids v in
        let deletedCount := length ids in
        clearSelection
          (if Nat.ltb 0 deletedCount
           then notify Recorder.ToastSuccess (counted deletedCount "permanently deleted") v1
           else v1)
  end.



End TrashView.

(** ** Sample data *)

Module Samples.
Import LocalStore.

Definition sampleActive : SavedTranscript :=
  mkSavedTranscript "1700000000000" "hello world" 1700000000000%Z None
                    (Some "en-US") (Some "alice").

Definition sampleTrashed : SavedTranscript :=
  mkSavedTranscript "1700000000001" "old note" 1700000000001%Z (Some 1700000500000%Z)
                    (Some "en-US") (Some "bob").

Definition sampleStorage : localStorage :=
  mkLocalStorage (Some [sampleActive; sampleTrashed]) 2.

Definition emptyWorld : Recorder.World :=
  Recorder.mkWorld (mkLocalStorage None 0) [] [] 0 false false false [] [].

Definition signedIn : Recorder.Render :=
  Recorder.mkRender (Some "u1") "en-US" "" "" false.

(** The same render after an earlier authentication failure raised the flag. *)
Definition signedInFlagged : Recorder.Render :=
  Recorder.mkRender (Some "u1") "en-US" "" "" true.

(** Every request throws. *)
Definition offline : Recorder.Env :=
  Recorder.mkEnv (fun _ => Recorder.Failed "Failed to fetch") 1700000000000 1700000000000.

(** Every request is answered 401 by the endpoint's signed-out branch. *)
Definition signedOutServer : Recorder.Env :=
  Recorder.mkEnv
    (fun _ => Recorder.Responded false
                (Recorder.mkResponseData false None
                   (Some "You must be logged in to save transcripts") None))
    1700000000000 1700000000000.

Definition emptyDb : Remote.Db := Remote.mkDb [] [] 0.

(** A signed-in user and a store that answers every statement. *)
Definition healthy : Remote.Env :=
  Remote.mkEnv (inr (Some (Remote.mkUser "u1" "u1@example.org")))
               (fun _ => None)
               (fun n => "row-" +:+ pretty n)
               (fun n => 1700000000000 + Z.of_nat n)%Z.

(** The same, with the second statement of the request answered by an error. *)
Definition contentInsertFails : Remote.Env :=
  Remote.mkEnv (inr (Some (Remote.mkUser "u1" "u1@example.org")))
               (fun n => if Nat.eqb n 1 then Some (Remote.mkPgError "08006" "connection failure")
                         else None)
               (fun n => "row-" +:+ pretty n)
               (fun n => 1700000000000 + Z.of_nat n)%Z.

Definition helloRequest : SaveRoute.SaveRequest :=
  SaveRoute.mkSaveRequest (Some "hello world") None (Some "u1") None.

(** A transcript of one space. *)
Definition blankRequest : SaveRoute.SaveRequest :=
  SaveRoute.mkSaveRequest (Some " ") None (Some "u1") None.

Definition noteRow : Remote.TranscriptRow :=
  Remote.mkTranscriptRow "t1" "u1" "Note" false 1700000000000 1700000000000 "en-US".

Definition notePayload : CachedService.Payload :=
  CachedService.mkPayload noteRow "old text".

(** The store holds the note and its one content row; the cache holds the
    note as fetched at instant 0. *)
Definition cachedNote : CachedService.State :=
  CachedService.mkState
    {[ "t1" := CachedService.mkCacheEntry notePayload 0 ]}
    (Remote.mkDb [noteRow] [Remote.mkContentRow "c1" "t1" "old text" 1700000000000] 0).

Definition clockAt (t : Z) : CachedService.Clock :=
  CachedService.mkClock t t (fun _ => t).

(** The session of another user, "u2", on a store that answers every statement. *)
Definition otherUser : Remote.Env :=
  Remote.mkEnv (inr (Some (Remote.mkUser "u2" "u2@example.org")))
               (fun _ => None)
               (fun n => "row-" +:+ pretty n)
               (fun n => 1700000000000 + Z.of_nat n)%Z.

(** The first request throws, every later one is accepted. *)
Definition flaky : Recorder.Env :=
  Recorder.mkEnv
    (fun n => if Nat.eqb n 0 then Recorder.Failed "Failed to fetch"
              else Recorder.Responded true
                     (Recorder.mkResponseData true (Some "Transcript saved successfully")
                        None (Some "row-0")))
    1700000000000 1700000000000.

(** A signed-in user and a store that answers every statement with an error. *)
Definition offline_store : Remote.Env :=
  Remote.mkEnv (inr (Some (Remote.mkUser "u1" "u1@example.org")))
               (fun _ => Some (Remote.mkPgError "08006" "connection failure"))
               (fun n => "row-" +:+ pretty n)
               (fun n => 1700000000000 + Z.of_nat n)%Z.

(** A signed-in user and a store that answers the first statement and none
    after it. *)
Definition storeGoesAway : Remote.Env :=
  Remote.mkEnv (inr (Some (Remote.mkUser "u1" "u1@example.org")))
               (fun n => if Nat.eqb n 0 then None
                         else Some (Remote.mkPgError "08006" "connection failure"))
               (fun n => "row-" +:+ pretty n)
               (fun n => 1700000000000 + Z.of_nat n)%Z.

(** No session can be read: getUser answers with its error. *)
Definition sessionMissing : Remote.Env :=
  Remote.mkEnv (inl (Remote.mkPgError "" "Auth session missing!"))
               (fun _ => None)
               (fun n => "row-" +:+ pretty n)
               (fun n => 1700000000000 + Z.of_nat n)%Z.

End Samples.

(** * Properties *)

(** ** Array primitives *)

Module JSFacts.
Import JS.

Lemma findIndex_None {A} (p : A -> bool) l :
  findIndex p l = None <-> (forall x, In x l -> p x = false).
Proof.
  induction l as [|x l IH]; simpl.
  - split; [intros _ y [] | done].
  - destruct (p x) eqn:Hx.
    + split; [done | intros H; specialize (H x (or_introl eq_refl)); congruence].
    + destruct (findIndex p l) as [i|] eqn:Hi; simpl.
      * split; [done | intros H].
        destruct IH as [_ IH]. discriminate IH. intros y Hy. apply H. by right.
      * split; [intros _ y [<-|Hy]; [done | by apply IH] | done].
Qed.

Lemma findIndex_Some {A} (p : A -> bool) l i :
  findIndex p l = Some i ->
  exists x, l !! i = Some x /\ p x = true /\
            forall j y, (j < i)%nat -> l !! j = Some y -> p y = false.
Proof.
  revert i. induction l as [|x l IH]; intros i; simpl; [done|].
  destruct (p x) eqn:Hx.
  - intros [= <-]. exists x. repeat split; [done | intros j y Hj; lia].
  - destruct (findIndex p l) as [k|] eqn:Hk; simpl; [|done].
    intros [= <-]. destruct (IH k eq_refl) as (y & Hy & Hpy & Hlt).
    exists y. repeat split; [done..|].
    intros [|j] z Hj; simpl; [by intros [= <-] | intros Hz].
    apply (Hlt j z); [lia | done].
Qed.

Lemma filter_all {A} (p : A -> bool) l :
  (forall x, In x l -> p x = true) -> List.filter p l = l.
Proof.
  induction l as [|x l IH]; simpl; [done|]. intros H.
  rewrite (H x (or_introl eq_refl)). f_equal. apply IH. intros y Hy. apply H. by right.
Qed.

End JSFacts.

(** ** The local store *)

Module LocalStoreFacts.
Import JS JSFacts LocalStore Samples.

Lemma getAllTranscripts_all ls : getAllTranscripts None ls = parsed ls.
Proof. reflexivity. Qed.

Lemma hasId_true i t : hasId i t = true <-> id t = i.
Proof. unfold hasId. apply String.eqb_eq. Qed.

Lemma hasId_false i t : hasId i t = false <-> id t <> i.
Proof. unfold hasId. apply String.eqb_neq. Qed.

Lemma hasId_with_text i s t : hasId i (with_text s t) = hasId i t.
Proof. reflexivity. Qed.

Lemma hasId_with_deletedAt i d t : hasId i (with_deletedAt d t) = hasId i t.
Proof. reflexivity. Qed.

Lemma findIndex_absent i l :
  (forall t, In t l -> id t <> i) -> findIndex (hasId i) l = None.
Proof.
  intros H. apply findIndex_None. intros t Ht. apply hasId_false. by apply H.
Qed.

Lemma findIndex_present i l :
  (exists t, In t l /\ id t = i) -> exists index, findIndex (hasId i) l = Some index.
Proof.
  intros (t & Ht & Hi). destruct (findIndex (hasId i) l) as [k|] eqn:Hk; [by exists k|].
  rewrite findIndex_None in Hk. specialize (Hk t Ht). apply hasId_false in Hk. done.
Qed.

(** Updating the record at the index [findIndex] returned updates the record
    [find] returns, when the update keeps the searched property. *)
Lemma find_alter_found {A} (p : A -> bool) (f : A -> A) l index :
  (forall x, p (f x) = p x) ->
  findIndex p l = Some index ->
  List.find p (alter f index l) = f <$> List.find p l.
Proof.
  intros Hf. revert index. induction l as [|x l IH]; intros index; simpl; [done|].
  destruct (p x) eqn:Hx.
  - intros [= <-]. simpl. by rewrite Hf, Hx.
  - destruct (findIndex p l) as [k|] eqn:Hk; simpl; [|done].
    intros [= <-]. simpl. rewrite Hx. by apply IH.
Qed.

Lemma alter_as_insert {A} (f : A -> A) (l : list A) index x :
  l !! index = Some x -> alter f index l = <[index := f x]> l.
Proof.
  revert index. induction l as [|y l IH]; intros [|k]; simpl; try done.
  - by intros [= ->].
  - intros H. f_equal. by apply IH.
Qed.

Lemma find_is_Some_of_index {A} (p : A -> bool) l index :
  findIndex p l = Some index -> exists x, List.find p l = Some x.
Proof.
  revert index. induction l as [|x l IH]; intros index; simpl; [done|].
  destruct (p x); [by exists x|].
  destruct (findIndex p l) as [k|]; simpl; [|done]. intros _. by apply (IH k).
Qed.

Lemma filter_drops_nothing i l :
  (forall t, In t l -> id t <> i) ->
  List.filter (fun t => negb (hasId i t)) l = l.
Proof.
  intros H. apply filter_all. intros t Ht.
  apply negb_true_iff, hasId_false. by apply H.
Qed.

Lemma trash_listing_filter (u : option string) ls t :
  In t (getTrashTranscripts u ls) <->
  In t (parsed ls) /\ isTrashed t = true /\
  (truthy_opt u = true -> userId t = u).
Proof.
  unfold getTrashTranscripts. rewrite filter_In.
  destruct (isTrashed t); simpl; [|intuition congruence].
  destruct (truthy_opt u); unfold ownedBy; [|intuition congruence].
  rewrite bool_decide_eq_true. intuition congruence.
Qed.

Lemma emptyTrash_parsed ls :
  parsed (snd (emptyTrash ls)) = List.filter (fun t => negb (isTrashed t)) (parsed ls).
Proof. reflexivity. Qed.

Lemma trash_listing_after_emptyTrash u ls :
  getTrashTranscripts u (snd (emptyTrash ls)) = [].
Proof.
  unfold getTrashTranscripts. rewrite emptyTrash_parsed.
  induction (parsed ls) as [|t l IH]; simpl; [done|].
  destruct (isTrashed t) eqn:Ht; simpl; [done|]. by rewrite Ht.
Qed.

(** C10: for an id that no stored record carries, updateTranscript,
    moveToTrash, restoreFromTrash and permanentlyDelete each return false and
    leave localStorage as it was: same stored collection, no setItem call. *)
Theorem not_found_returns_false_without_write
    (i newText : string) (now : Z) (ls : localStorage) :
  (forall t, In t (parsed ls) -> id t <> i) ->
  updateTranscript i newText ls = (false, ls) /\
  moveToTrash now i ls = (false, ls) /\
  restoreFromTrash i ls = (false, ls) /\
  permanentlyDelete i ls = (false, ls).
Proof.
  intros H.
  unfold updateTranscript, moveToTrash, restoreFromTrash, permanentlyDelete.
  rewrite getAllTranscripts_all, (findIndex_absent i _ H), (filter_drops_nothing i _ H).
  by rewrite Nat.eqb_refl.
Qed.

Lemma not_found_returns_false_without_write_witness :
  updateTranscript "42" "x" sampleStorage = (false, sampleStorage) /\
  moveToTrash 5%Z "42" sampleStorage = (false, sampleStorage) /\
  restoreFromTrash "42" sampleStorage = (false, sampleStorage) /\
  permanentlyDelete "42" sampleStorage = (false, sampleStorage).
Proof.
  apply (not_found_returns_false_without_write "42" "x" 5%Z sampleStorage).
  intros t [<-|[<-|[]]]; simpl; discriminate.
Defined.

(** C9: emptyTrash always returns true and writes back the stored records
    that have no deletedAt, in their order: every record with a deletedAt is
    removed whoever owns it (the trash listing of every user is empty
    afterwards), the records without one are kept as they are, and with an
    empty trash the collection is unchanged. *)
Theorem emptyTrash_removes_exactly_trashed (ls : localStorage) :
  fst (emptyTrash ls) = true /\
  parsed (snd (emptyTrash ls)) =
    List.filter (fun t => negb (isTrashed t)) (parsed ls) /\
  (forall t, In t (parsed (snd (emptyTrash ls))) <->
             In t (parsed ls) /\ deletedAt t = None) /\
  (forall u, getTrashTranscripts u (snd (emptyTrash ls)) = []) /\
  (forall u, getSavedTranscripts u (snd (emptyTrash ls)) = getSavedTranscripts u ls) /\
  ((forall t, In t (parsed ls) -> deletedAt t = None) ->
   emptyTrash ls = (true, setItem (parsed ls) ls)).
Proof.
  split; [done|]. split; [done|]. split; [|split; [|split]].
  - intros t. rewrite emptyTrash_parsed, filter_In. unfold isTrashed.
    destruct (deletedAt t); simpl; intuition congruence.
  - intros u. apply trash_listing_after_emptyTrash.
  - intros u. unfold getSavedTranscripts. rewrite emptyTrash_parsed.
    induction (parsed ls) as [|t l IH]; simpl; [done|].
    destruct (isTrashed t) eqn:Ht; simpl; [done|]. rewrite Ht. by rewrite IH.
  - intros H. unfold emptyTrash. rewrite getAllTranscripts_all. f_equal. f_equal.
    apply filter_all. intros t Ht. unfold isTrashed. by rewrite (H t Ht).
Qed.

Lemma moveToTrash_found now i ls index :
  findIndex (hasId i) (parsed ls) = Some index ->
  moveToTrash now i ls =
    (true, setItem (alter (with_deletedAt (Some now)) index (parsed ls)) ls).
Proof. intros H. unfold moveToTrash. by rewrite getAllTranscripts_all, H. Qed.

Lemma restoreFromTrash_found i ls index :
  findIndex (hasId i) (parsed ls) = Some index ->
  restoreFromTrash i ls =
    (true, setItem (alter (with_deletedAt None) index (parsed ls)) ls).
Proof. intros H. unfold restoreFromTrash. by rewrite getAllTranscripts_all, H. Qed.

Lemma updateTranscript_found i s ls index :
  findIndex (hasId i) (parsed ls) = Some index ->
  updateTranscript i s ls =
    (true, setItem (alter (with_text s) index (parsed ls)) ls).
Proof. intros H. unfold updateTranscript. by rewrite getAllTranscripts_all, H. Qed.

Lemma filter_shrinks_on_member {A} (p : A -> bool) l x :
  In x l -> p x = false -> (length (List.filter p l) < length l)%nat.
Proof.
  induction l as [|y l IH]; simpl; [done|].
  intros [->|Hx] Hp.
  - rewrite Hp. pose proof (List.filter_length_le p l). lia.
  - specialize (IH Hx Hp). destruct (p y); simpl; lia.
Qed.

Lemma permanentlyDelete_found i ls :
  (exists t, In t (parsed ls) /\ id t = i) ->
  permanentlyDelete i ls =
    (true, setItem (List.filter (fun t => negb (hasId i t)) (parsed ls)) ls).
Proof.
  intros (t & Ht & Hi). unfold permanentlyDelete. rewrite getAllTranscripts_all.
  assert (Hlt := filter_shrinks_on_member (fun t => negb (hasId i t)) _ t Ht).
  destruct (Nat.eqb_spec
    (length (List.filter (fun t => negb (hasId i t)) (parsed ls))) (length (parsed ls)))
    as [Heq|]; [|done].
  exfalso. assert (Hp : negb (hasId i t) = false)
    by (apply negb_false_iff, hasId_true, Hi).
  specialize (Hlt Hp). lia.
Qed.

(** C4 (as stated, refuted): a second moveToTrash on a trashed record does
    not keep the first deletedAt. The record trashed at instant 1000 carries
    2000 after a repeated call at instant 2000. *)
Lemma moveToTrash_twice_refreshes_deletedAt :
  ~ (forall (ls : localStorage) (i : string) (d now : Z),
        deletedAtOf i ls = Some (Some d) ->
        deletedAtOf i (snd (moveToTrash now i ls)) = Some (Some d)).
Proof.
  intros H.
  specialize (H (snd (moveToTrash 1000 "1700000000000" sampleStorage))
                "1700000000000" 1000%Z 2000%Z eq_refl).
  vm_compute in H. discriminate H.
Qed.

(** C4 (amended): moveToTrash on a stored id succeeds whatever the state of
    the record, and stamps the first record with that id with the instant of
    this call: a repeated call on a trashed record overwrites deletedAt with
    the new instant; the record's other fields and all other records are
    unchanged. *)
Theorem moveToTrash_stamps_current_instant
    (now : Z) (i : string) (ls : localStorage) :
  (exists t, In t (parsed ls) /\ id t = i) ->
  fst (moveToTrash now i ls) = true /\
  deletedAtOf i (snd (moveToTrash now i ls)) = Some (Some now) /\
  exists index t,
    findIndex (hasId i) (parsed ls) = Some index /\
    parsed ls !! index = Some t /\
    parsed (snd (moveToTrash now i ls)) =
      <[index := with_deletedAt (Some now) t]> (parsed ls).
Proof.
  intros Hex. destruct (findIndex_present _ _ Hex) as [index Hidx].
  rewrite (moveToTrash_found _ _ _ _ Hidx). split; [done|]. split.
  - unfold deletedAtOf. cbn [snd setItem parsed stored].
    rewrite (find_alter_found _ _ _ _ (hasId_with_deletedAt i (Some now)) Hidx).
    destruct (find_is_Some_of_index _ _ _ Hidx) as [x ->]. done.
  - destruct (findIndex_Some _ _ _ Hidx) as (t & Ht & _).
    exists index, t. split; [done|]. split; [done|].
    cbn [snd setItem parsed stored]. by apply alter_as_insert.
Qed.

Lemma moveToTrash_stamps_current_instant_witness :
  fst (moveToTrash 2000 "1700000000001" sampleStorage) = true /\
  deletedAtOf "1700000000001" (snd (moveToTrash 2000 "1700000000001" sampleStorage))
    = Some (Some 2000%Z).
Proof.
  destruct (moveToTrash_stamps_current_instant 2000 "1700000000001" sampleStorage)
    as (H1 & H2 & _); [|by split].
  exists sampleTrashed. split; [right; by left | reflexivity].
Defined.

Lemma restoreFromTrash_after_emptyTrash i ls :
  (forall t, In t (parsed ls) -> id t = i -> isTrashed t = true) ->
  fst (restoreFromTrash i (snd (emptyTrash ls))) = false.
Proof.
  intros H. unfold restoreFromTrash.
  rewrite getAllTranscripts_all, emptyTrash_parsed, findIndex_absent; [done|].
  intros t [Ht Hn]%filter_In Hi. rewrite (H t Ht Hi) in Hn. done.
Qed.

Lemma daysLeft_past_window now date :
  (now - date > 30 * msPerDay)%Z -> (daysLeft now date <= 0)%Z.
Proof.
  unfold daysLeft, daysAgo, msPerDay. intros H.
  assert (30 <= (now - date) / (1000 * 60 * 60 * 24))%Z; [|lia].
  apply Z.div_le_lower_bound; lia.
Qed.

(** C3: the code promises the purge (the trash view says that items are
    permanently deleted after 30 days and shows the days left) and never
    performs it. A trashed record older than 30 days is still listed by
    getTrashTranscripts, for every user filter it matches, and
    restoreFromTrash on it still succeeds, while the days left shown for it
    are at most 0. It leaves the trash only by an explicit purge: after
    emptyTrash it is in no trash listing and not in the store, and
    restoreFromTrash on its id returns false when every record with that id
    was trashed. *)
Theorem trash_retention_not_enforced
    (ls : localStorage) (u : option string) (now : Z)
    (t : SavedTranscript) (d : Z) :
  In t (parsed ls) -> deletedAt t = Some d ->
  (now - d > 30 * msPerDay)%Z ->
  (In t (getTrashTranscripts u ls) <-> (truthy_opt u = true -> userId t = u)) /\
  fst (restoreFromTrash (id t) ls) = true /\
  (forall date, (date <= d)%Z -> (daysLeft now date <= 0)%Z) /\
  ~ In t (getTrashTranscripts u (snd (emptyTrash ls))) /\
  ~ In t (parsed (snd (emptyTrash ls))) /\
  ((forall t', In t' (parsed ls) -> id t' = id t -> isTrashed t' = true) ->
   fst (restoreFromTrash (id t) (snd (emptyTrash ls))) = false).
Proof.
  intros Hin Hd Hage.
  assert (Htr : isTrashed t = true) by (unfold isTrashed; by rewrite Hd).
  split; [|split; [|split; [|split; [|split]]]].
  - rewrite trash_listing_filter. tauto.
  - destruct (findIndex_present (id t) (parsed ls)) as [index Hidx]; [by exists t|].
    by rewrite (restoreFromTrash_found _ _ _ Hidx).
  - intros date Hdate. apply daysLeft_past_window. lia.
  - rewrite trash_listing_after_emptyTrash. intros [].
  - rewrite emptyTrash_parsed, filter_In, Htr. simpl. intros [_ ?]. done.
  - apply restoreFromTrash_after_emptyTrash.
Qed.

Lemma trash_retention_not_enforced_witness :
  In sampleTrashed (getTrashTranscripts (Some "bob") sampleStorage) /\
  fst (restoreFromTrash (id sampleTrashed) sampleStorage) = true /\
  (daysLeft (1700000500000 + 31 * msPerDay) (timestamp sampleTrashed) <= 0)%Z.
Proof.
  destruct (trash_retention_not_enforced sampleStorage (Some "bob")
              (1700000500000 + 31 * msPerDay)%Z sampleTrashed 1700000500000%Z)
    as (H1 & H2 & H3 & _).
  - right. by left.
  - reflexivity.
  - unfold msPerDay. lia.
  - split; [apply H1; reflexivity|]. split; [exact H2|].
    apply H3. simpl. lia.
Defined.

End LocalStoreFacts.

(** ** The hosted store *)

Module RemoteFacts.
Import JS JSFacts Remote.

Lemma statement_requests {A} env (run : Db -> Db * (PgError + A)) db :
  (forall d, requests (fst (run d)) = requests d) ->
  requests (fst (statement env run db)) = S (requests db).
Proof.
  intros H. unfold statement. destruct (faults env (requests db)); simpl; [done|].
  by rewrite H.
Qed.

Lemma insert_transcript_ok env t o l db db1 i :
  insert_transcript env t o l db = (db1, inr i) ->
  faults env (requests db) = None /\
  auth_uid env = Some o /\
  (forall r, In r (transcripts db) -> tid r <> i) /\
  exists row,
    tid row = i /\ user_id row = o /\
    db1 = mkDb (transcripts db ++ [row]) (transcript_contents db) (S (requests db)).
Proof.
  unfold insert_transcript, statement.
  destruct (faults env (requests db)); [done|]. simpl.
  destruct (owns env _) eqn:Hown; simpl; [|done].
  destruct (existsb _ (transcripts db)) eqn:Hex; [done|].
  intros [= <- <-]. split; [done|]. split.
  - unfold owns in Hown. simpl in Hown. by apply bool_decide_eq_true in Hown.
  - split.
    + intros r Hr Heq.
      assert (existsb (fun r0 => String.eqb (tid r0) (uuid env (requests db)))
                      (transcripts db) = true); [|congruence].
      apply existsb_exists. exists r. split; [done|]. by apply String.eqb_eq.
    + by exists (mkTranscriptRow (uuid env (requests db)) o t false
                 (now env (requests db)) (now env (requests db)) l).
Qed.

Lemma insert_content_failed env i c db db2 e :
  insert_content env i c db = (db2, inl e) ->
  db2 = tick db.
Proof.
  unfold insert_content, statement.
  destruct (faults env (requests db)); [by intros [= <- _]|].
  destruct (owns_content env _ _); simpl; [|by intros [= <- _]].
  destruct (existsb _ _); [by intros [= <- _] | done].
Qed.

Lemma filter_app_fresh {A} (p : A -> bool) l x :
  (forall y, In y l -> p y = true) -> p x = false ->
  List.filter p (l ++ [x]) = l.
Proof.
  intros Hl Hx. rewrite List.filter_app. simpl. rewrite Hx, app_nil_r.
  by apply filter_all.
Qed.

(** Deleting, as its owner, a row that was appended under a fresh id gives
    back the table as it was. *)
Lemma delete_appended_row env db row n :
  faults env n = None ->
  auth_uid env = Some (user_id row) ->
  (forall r, In r (transcripts db) -> tid r <> tid row) ->
  transcripts
    (fst (delete_transcript env (tid row) None
            (mkDb (transcripts db ++ [row]) (transcript_contents db) n)))
  = transcripts db.
Proof.
  intros Hf Hu Hfresh. unfold delete_transcript, statement. simpl. rewrite Hf. simpl.
  apply filter_app_fresh.
  - intros r Hr. apply negb_true_iff.
    rewrite andb_true_r. apply andb_false_iff. left.
    apply String.eqb_neq. by apply Hfresh.
  - apply negb_false_iff. rewrite andb_true_r. apply andb_true_iff. split.
    + apply String.eqb_refl.
    + unfold owns. by apply bool_decide_eq_true.
Qed.

Lemma delete_transcript_contents_subset env i u db c :
  In c (transcript_contents (fst (delete_transcript env i u db))) ->
  In c (transcript_contents db).
Proof.
  unfold delete_transcript, statement.
  destruct (faults env (requests db)); simpl; [done|].
  by intros [H _]%filter_In.
Qed.

Lemma delete_transcript_requests env i u db :
  requests (fst (delete_transcript env i u db)) = S (requests db).
Proof. by apply statement_requests. Qed.

End RemoteFacts.

(** ** The save endpoint *)

Module SaveRouteFacts.
Import JS JSFacts Remote RemoteFacts SaveRoute Samples.

Lemma handleApiError_fails e ctx :
  success (handleApiError e ctx) = false /\
  (status (handleApiError e ctx) = 403 \/ status (handleApiError e ctx) = 401 \/
   status (handleApiError e ctx) = 500)%nat.
Proof.
  unfold handleApiError.
  destruct (String.eqb (code e) "42501"); [by auto|].
  destruct (includes (message e) "JWT"); by auto.
Qed.

(** C1 (as stated, refuted): the transcript row created by the operation can
    remain. Where the store answers the transcript insert and no statement
    after it, the content insert fails, the delete that should compensate
    fails too, its result is not looked at, and the row created under row-0
    stays. *)
Lemma failed_compensation_leaves_the_row :
  ~ (forall (env : Env) (req : SaveRequest) (db : Db)
        (text owner : string) (user : User) (db1 db2 : Db) (newId : string)
        (e : PgError),
        transcript req = Some text -> truthy text = true ->
        userId req = Some owner -> truthy owner = true ->
        session env = inr (Some user) -> uid user = owner ->
        insert_transcript env (or_else (req_title req) "New Transcript") owner
                          (or_else (language req) "en-US") db = (db1, inr newId) ->
        insert_content env newId text db1 = (db2, inl e) ->
        success (snd (POST env req db)) = false /\
        forall r, In r (transcripts (fst (POST env req db))) -> tid r <> newId).
Proof.
  intros H.
  destruct (H storeGoesAway helloRequest emptyDb
              "hello world" "u1" (mkUser "u1" "u1@example.org")
              (fst (insert_transcript storeGoesAway "New Transcript" "u1" "en-US" emptyDb))
              (tick (fst (insert_transcript storeGoesAway "New Transcript" "u1" "en-US"
                            emptyDb)))
              "row-0" (mkPgError "08006" "connection failure"))
    as [_ Hgone]; try reflexivity.
  apply (Hgone (mkTranscriptRow "row-0" "u1" "New Transcript" false
                  1700000000000 1700000000000 "en-US")); [|reflexivity].
  vm_compute. by left.
Qed.

(** C1 (amended): when the transcript row was inserted and the insert of its
    content row is answered with an error, POST sends the delete of the row it
    just created and answers the caller with a failure (status 403, 401 or
    500, body without success) and never with the success body; no content
    row was added. The delete is sent and its result not looked at: where the
    store carries it out, the transcripts table is what it was before the
    request and no row with the new id is left; where the store answers the
    delete with an error, the row just created stays. *)
Theorem failed_content_insert_is_compensated
    (env : Env) (req : SaveRequest) (db : Db)
    (text owner : string) (user : User) (db1 db2 : Db) (newId : string) (e : PgError) :
  transcript req = Some text -> truthy text = true ->
  userId req = Some owner -> truthy owner = true ->
  session env = inr (Some user) -> uid user = owner ->
  insert_transcript env (or_else (req_title req) "New Transcript") owner
                    (or_else (language req) "en-US") db = (db1, inr newId) ->
  insert_content env newId text db1 = (db2, inl e) ->
  let db' := fst (POST env req db) in
  let response := snd (POST env req db) in
  response = handleApiError e "save transcript content" /\
  success response = false /\
  (status response = 403 \/ status response = 401 \/ status response = 500)%nat /\
  db' = fst (delete_transcript env newId None db2) /\
  requests db' = (requests db + 3)%nat /\
  (forall c, In c (transcript_contents db') -> In c (transcript_contents db)) /\
  (faults env (requests db + 2) = None ->
   transcripts db' = transcripts db /\
   forall r, In r (transcripts db') -> tid r <> newId) /\
  (forall e2, faults env (requests db + 2) = Some e2 ->
   transcripts db' = transcripts db1 /\
   exists r, In r (transcripts db') /\ tid r = newId).
Proof.
  intros Ht Htt Hu Hut Hs Hid Hins Hcont. unfold POST.
  rewrite Ht, Htt, Hu, Hut, Hs, Hid, String.eqb_refl. simpl.
  rewrite Hins, Hcont.
  destruct (delete_transcript env newId None db2) as [db3 r] eqn:Hdel. simpl.
  assert (Hdb3 : db3 = fst (delete_transcript env newId None db2)) by (by rewrite Hdel).
  destruct (handleApiError_fails e "save transcript content") as [Hfail Hstatus].
  destruct (insert_transcript_ok _ _ _ _ _ _ _ Hins)
    as (Hf0 & Hauth & Hfresh & row & Hrid & Hrow & ->).
  apply insert_content_failed in Hcont. subst db2.
  split; [done|]. split; [done|]. split; [done|]. split; [done|].
  split; [|split; [|split]].
  - rewrite Hdb3, delete_transcript_requests. simpl. lia.
  - intros c Hc. rewrite Hdb3 in Hc.
    by apply delete_transcript_contents_subset in Hc.
  - intros Hf2. assert (Htab : transcripts db3 = transcripts db).
    { rewrite Hdb3, <- Hrid. unfold tick. simpl.
      apply delete_appended_row.
      - by replace (S (S (requests db))) with (requests db + 2)%nat by lia.
      - by rewrite Hrow.
      - intros r0 Hr. rewrite Hrid. by apply Hfresh. }
    split; [done|]. intros r' Hr. rewrite Htab in Hr. by apply Hfresh.
  - intros e2 Hf2.
    assert (Htab : transcripts db3 = (transcripts db ++ [row])%list).
    { rewrite Hdb3. unfold delete_transcript, statement.
      cbn [tick requests transcripts transcript_contents].
      replace (S (S (requests db))) with (requests db + 2)%nat by lia.
      by rewrite Hf2. }
    split; [done|]. exists row. split; [|done].
    rewrite Htab. apply in_or_app. right. by left.
Qed.

Lemma failed_content_insert_is_compensated_witness :
  success (snd (POST contentInsertFails helloRequest emptyDb)) = false /\
  transcripts (fst (POST contentInsertFails helloRequest emptyDb)) = [].
Proof.
  destruct (failed_content_insert_is_compensated contentInsertFails helloRequest emptyDb
              "hello world" "u1" (mkUser "u1" "u1@example.org")
              (fst (insert_transcript contentInsertFails "New Transcript" "u1" "en-US" emptyDb))
              (tick (fst (insert_transcript contentInsertFails "New Transcript" "u1" "en-US"
                            emptyDb)))
              "row-0" (mkPgError "08006" "connection failure"))
    as (_ & Hfail & _ & _ & _ & _ & Hgone & _); try reflexivity.
  split; [exact Hfail | apply Hgone; reflexivity].
Defined.

End SaveRouteFacts.

(** ** The recorder's save operation *)

Module RecorderFacts.
Import JS JSFacts LocalStore Recorder Samples.

Lemma saveTranscriptToServer_rejected env text l user w m :
  truthy user = true ->
  rejected (network env (fetches w)) = Some m ->
  saveTranscriptToServer env text l (Some user) w =
    (mkSaveResult false (Some m) None, fetched w).
Proof.
  intros Hu Hr. unfold saveTranscriptToServer. simpl. rewrite Hu. simpl.
  destruct (network env (fetches w)) as [[|] d|m']; simpl in *; congruence.
Qed.

(** One turn of the loop on a transient failure: the counter goes up, and
    the loop waits one second if another attempt is due. *)
Lemma attempts_transient fuel env r ft user retries le w m :
  truthy user = true ->
  (retries <= maxRetries)%nat ->
  rejected (network env (fetches w)) = Some m ->
  isAuthFailure (errorMessageOf m) = false ->
  attempts (S fuel) env r ft user retries le w =
  attempts fuel env r ft user (S retries) (Some (errorMessageOf m))
           (if Nat.leb (S retries) maxRetries then sleep 1000 (fetched w) else fetched w).
Proof.
  intros Hu Hle Hr Hna. cbn [attempts].
  destruct (Nat.leb_spec retries maxRetries) as [_|Hgt]; [|lia]. cbn [negb].
  rewrite (saveTranscriptToServer_rejected _ _ _ _ _ _ Hu Hr).
  cbn [success message].
  change (or_else (Some m) "Unknown error") with (errorMessageOf m).
  by rewrite Hna.
Qed.

(** One turn of the loop on an authentication failure: the loop is left. *)
Lemma attempts_auth fuel env r ft user retries le w m :
  truthy user = true ->
  (retries <= maxRetries)%nat ->
  rejected (network env (fetches w)) = Some m ->
  isAuthFailure (errorMessageOf m) = true ->
  attempts (S fuel) env r ft user retries le w =
  Some (mkLoopEnd false (Some (errorMessageOf m)), setAuthError true (fetched w)).
Proof.
  intros Hu Hle Hr Hna. cbn [attempts].
  destruct (Nat.leb_spec retries maxRetries) as [_|Hgt]; [|lia]. cbn [negb].
  rewrite (saveTranscriptToServer_rejected _ _ _ _ _ _ Hu Hr).
  cbn [success message].
  change (or_else (Some m) "Unknown error") with (errorMessageOf m).
  by rewrite Hna.
Qed.

Lemma attempts_all_transient env r ft user w m0 m1 m2 :
  truthy user = true ->
  rejected (network env (fetches w)) = Some m0 ->
  rejected (network env (S (fetches w))) = Some m1 ->
  rejected (network env (S (S (fetches w)))) = Some m2 ->
  isAuthFailure (errorMessageOf m0) = false ->
  isAuthFailure (errorMessageOf m1) = false ->
  isAuthFailure (errorMessageOf m2) = false ->
  attempts (S (S maxRetries)) env r ft user 0 None w =
  Some (mkLoopEnd false (Some (errorMessageOf m2)),
        fetched (sleep 1000 (fetched (sleep 1000 (fetched w))))).
Proof.
  intros Hu H0 H1 H2 A0 A1 A2. unfold maxRetries.
  rewrite (attempts_transient _ _ _ _ _ _ _ _ m0); [|done|unfold maxRetries; lia|done..].
  rewrite (attempts_transient _ _ _ _ _ _ _ _ m1); [|done|unfold maxRetries; lia|done..].
  rewrite (attempts_transient _ _ _ _ _ _ _ _ m2); [|done|unfold maxRetries; lia|done..].
  reflexivity.
Qed.

(** The loop ends within the fuel [saveToServer] gives it, whatever the
    network answers. *)
Lemma attempts_terminates fuel env r ft user retries le w :
  (1 <= fuel)%nat -> (maxRetries + 2 <= fuel + retries)%nat ->
  is_Some (attempts fuel env r ft user retries le w).
Proof.
  revert retries le w. induction fuel as [|fuel IH]; intros retries le w H1 H2; [lia|].
  cbn [attempts].
  destruct (Nat.leb_spec retries maxRetries) as [Hle|Hgt]; cbn [negb]; [|by eexists].
  destruct (saveTranscriptToServer env ft (selectedLanguage r) (Some user) w)
    as [result w1].
  destruct (success result); [by eexists|].
  destruct (isAuthFailure _); [by eexists|].
  apply IH; lia.
Qed.

Lemma saveToServer_returns env r textToSave w :
  is_Some (saveToServer env r textToSave w).
Proof.
  unfold saveToServer.
  destruct (negb (truthy (trim (finalTextOf r textToSave)))); [by eexists|].
  destruct (userDetailsId r) as [user|]; [|by eexists].
  destruct (truthy user); [|by eexists].
  destruct (attempts_terminates (S (S maxRetries)) env r (finalTextOf r textToSave)
              user 0 None (setServerSaving true w)) as [[loopEnd w1] ->];
    [unfold maxRetries; lia..|].
  by eexists.
Qed.

Lemma errorMessageOf_truthy m : truthy (errorMessageOf m) = true.
Proof. unfold errorMessageOf, or_else. by destruct (truthy m) eqn:H. Qed.

Lemma lastError_or_unknown m :
  or_else (Some (errorMessageOf m)) "Unknown error" = errorMessageOf m.
Proof. unfold or_else at 1. by rewrite errorMessageOf_truthy. Qed.

Lemma storeLocally_stores env r text w :
  truthy (trim text) = true ->
  storeLocally env r text w =
  clearTranscript
    (with_storage
       (storeTranscriptLocally (dateNow env) (newDate env) text
                               (Some (selectedLanguage r)) (userDetailsId r) (storage w))
       w).
Proof. intros H. unfold storeLocally. by rewrite H. Qed.

Lemma storeLocally_frame env r text w :
  fetches (storeLocally env r text w) = fetches w /\
  waits (storeLocally env r text w) = waits w /\
  authErrorSet (storeLocally env r text w) = authErrorSet w /\
  toasts (storeLocally env r text w) = toasts w.
Proof. unfold storeLocally. by destruct (negb (truthy (trim text))). Qed.

(** What follows the loop leaves the request count, the waits and the raised
    flag as the loop left them. *)
Lemma after_loop_frame env r ft (b : bool) (t : Toast) w :
  let w' := setServerSaving false (if b then toast t (storeLocally env r ft w) else w) in
  fetches w' = fetches w /\ waits w' = waits w /\ authErrorSet w' = authErrorSet w.
Proof.
  destruct (storeLocally_frame env r ft w) as (H1 & H2 & H3 & _).
  destruct b; simpl; auto.
Qed.

(** With an owner id and a transient failure on every attempt, the transcript
    is not always written to the local store: invoked from a render whose
    authError flag is set, saveToServer retries as usual and then skips the
    local fallback and its notification. *)
Lemma transient_failures_without_local_fallback :
  ~ (forall (env : Env) (r : Render) (textToSave user : string) (w : World),
        truthy (trim (finalTextOf r textToSave)) = true ->
        userDetailsId r = Some user -> truthy user = true ->
        (forall k, (k < 3)%nat -> transientFailure (network env (fetches w + k))) ->
        exists w',
          saveToServer env r textToSave w = Some w' /\
          (exists t, In t (parsed (storage w')) /\ text t = finalTextOf r textToSave) /\
          toasts w' <> toasts w).
Proof.
  intros H.
  destruct (H offline signedInFlagged "hello world" "u1" emptyWorld)
    as (w' & Hsave & (t & Ht & _) & _); try reflexivity.
  - intros k _. exists "Failed to fetch". by split.
  - vm_compute in Hsave. injection Hsave as <-. destruct Ht.
Qed.

(** The path the fallback was written for. For a save with an owner id,
    invoked from a render whose authError flag is clear, whose request is
    turned down with a transient message on each of the three attempts:
    saveToServer sends exactly three
    requests (two retries), waits 1000 ms after the first and after the
    second, then appends the transcript to the local store and shows the
    error notification saying it was saved locally instead, and no success
    notification. And whatever the flag: a request turned down with an
    authentication message, after k transient failures, is the last one sent. *)
Theorem transient_failures_retry_twice_then_store_locally
    (env : Env) (r : Render) (textToSave user : string) (w : World) :
  truthy (trim (finalTextOf r textToSave)) = true ->
  userDetailsId r = Some user -> truthy user = true ->
  (authError r = false ->
   (forall k, (k < 3)%nat -> transientFailure (network env (fetches w + k))) ->
   exists w' m,
     saveToServer env r textToSave w = Some w' /\
     fetches w' = (fetches w + 3)%nat /\
     waits w' = (waits w ++ [1000%Z; 1000%Z])%list /\
     storage w' =
       storeTranscriptLocally (dateNow env) (newDate env) (finalTextOf r textToSave)
         (Some (selectedLanguage r)) (Some user) (storage w) /\
     rejected (network env (fetches w + 2)) = Some m /\
     toasts w' = (toasts w ++
       [mkToast ToastError "Failed to save to server"
          (Some ("Saved locally instead. Error: " ++ errorMessageOf m)%string)])%list /\
     events w' = (events w ++
       [Requested; Waited 1000; Requested; Waited 1000; Requested; StoredLocally;
        Notified (mkToast ToastError "Failed to save to server"
                    (Some ("Saved locally instead. Error: " ++ errorMessageOf m)%string))])%list /\
     authErrorSet w' = authErrorSet w /\ created w' = created w) /\
  (forall k, (k < 3)%nat ->
   (forall j, (j < k)%nat -> transientFailure (network env (fetches w + j))) ->
   authFailure (network env (fetches w + k)) ->
   exists w',
     saveToServer env r textToSave w = Some w' /\
     fetches w' = (fetches w + k + 1)%nat /\
     waits w' = (waits w ++ repeat 1000%Z k)%list /\
     authErrorSet w' = true).
Proof.
  intros Htext Huser Htruthy. split.
  - intros Hflag Hall.
    destruct (Hall 0%nat ltac:(lia)) as (m0 & H0 & A0).
    destruct (Hall 1%nat ltac:(lia)) as (m1 & H1 & A1).
    destruct (Hall 2%nat ltac:(lia)) as (m2 & H2 & A2).
    rewrite Nat.add_0_r in H0. rewrite Nat.add_1_r in H1.
    assert (H2' := H2).
    replace (fetches w + 2)%nat with (S (S (fetches w))) in H2 by lia.
    eexists _, m2. unfold saveToServer. rewrite Htext, Huser, Htruthy. cbn [negb].
    rewrite (attempts_all_transient _ _ _ _ _ m0 m1 m2); try done.
    cbn [savedSuccessfully lastError]. rewrite Hflag. cbn [negb andb].
    rewrite storeLocally_stores by done. rewrite Huser, lastError_or_unknown.
    split; [reflexivity|].
    cbn [fetches waits storage toasts authErrorSet created events setServerSaving
         toast clearTranscript with_storage fetched sleep].
    split; [lia|]. split; [by rewrite <- app_assoc|].
    split; [done|]. split; [done|]. split; [done|].
    split; [by rewrite <- !app_assoc | done].
  - intros k Hk Hbefore (m & Hm & Am).
    unfold saveToServer. rewrite Htext, Huser, Htruthy. cbn [negb].
    unfold maxRetries at 1.
    destruct k as [|[|[|k]]]; [| | |lia].
    + rewrite Nat.add_0_r in Hm.
      rewrite (attempts_auth _ _ _ _ _ _ _ _ m); [|done|unfold maxRetries; lia|done..].
      eexists. split; [reflexivity|].
      match goal with |- context [setServerSaving false (if ?b then toast ?t _ else ?x)] =>
        destruct (after_loop_frame env r (finalTextOf r textToSave) b t x) as (-> & -> & ->)
      end.
      cbn. split; [lia|]. split; [by rewrite app_nil_r | done].
    + destruct (Hbefore 0%nat ltac:(lia)) as (m0 & H0 & A0).
      rewrite Nat.add_0_r in H0. rewrite Nat.add_1_r in Hm.
      rewrite (attempts_transient _ _ _ _ _ _ _ _ m0);
        [|done|unfold maxRetries; lia|done..].
      rewrite (attempts_auth _ _ _ _ _ _ _ _ m); [|done|unfold maxRetries; lia|done..].
      eexists. split; [reflexivity|].
      match goal with |- context [setServerSaving false (if ?b then toast ?t _ else ?x)] =>
        destruct (after_loop_frame env r (finalTextOf r textToSave) b t x) as (-> & -> & ->)
      end.
      cbn. split; [lia|]. done.
    + destruct (Hbefore 0%nat ltac:(lia)) as (m0 & H0 & A0).
      destruct (Hbefore 1%nat ltac:(lia)) as (m1 & H1 & A1).
      rewrite Nat.add_0_r in H0. rewrite Nat.add_1_r in H1.
      replace (fetches w + 2)%nat with (S (S (fetches w))) in Hm by lia.
      rewrite (attempts_transient _ _ _ _ _ _ _ _ m0);
        [|done|unfold maxRetries; lia|done..].
      rewrite (attempts_transient _ _ _ _ _ _ _ _ m1);
        [|done|unfold maxRetries; lia|done..].
      rewrite (attempts_auth _ _ _ _ _ _ _ _ m); [|done|unfold maxRetries; lia|done..].
      eexists. split; [reflexivity|].
      match goal with |- context [setServerSaving false (if ?b then toast ?t _ else ?x)] =>
        destruct (after_loop_frame env r (finalTextOf r textToSave) b t x) as (-> & -> & ->)
      end.
      cbn. split; [lia|]. split; [by rewrite <- app_assoc | done].
Qed.

Lemma transient_failures_retry_twice_then_store_locally_witness :
  exists w',
    saveToServer offline signedIn "hello world" emptyWorld = Some w' /\
    fetches w' = 3%nat /\ waits w' = [1000%Z; 1000%Z] /\
    setItemCalls (storage w') = 1%nat.
Proof.
  destruct (transient_failures_retry_twice_then_store_locally
              offline signedIn "hello world" "u1" emptyWorld) as [H _];
    try reflexivity.
  destruct H as (w' & m & Hs & Hf & Hw & Hst & _).
  - reflexivity.
  - intros k _. exists "Failed to fetch". by split.
  - exists w'. rewrite Hst. by repeat split.
Defined.

(** C2: the fallback to the local store is lost behind a flag left over from
    an earlier call. The guard after the loop reads authError as the render
    captured it, not as this call set it: invoked with the flag set, with an
    owner id, and turned down with a transient message on each of the three
    attempts, saveToServer retries twice with a wait of one second each, meets
    no authentication failure, and then stores nothing locally and shows no
    notification, against the comment on that guard (after the retries, save
    locally and show the error). handleManualSave then clears the text under
    edit, so the transcript is gone. The same call from a render with the flag
    clear stores the transcript locally. *)
Theorem stale_authError_flag_loses_transcript
    (env : Env) (r : Render) (textToSave user : string) (w : World) :
  truthy (trim (finalTextOf r textToSave)) = true ->
  userDetailsId r = Some user -> truthy user = true ->
  authError r = true ->
  (forall k, (k < 3)%nat -> transientFailure (network env (fetches w + k))) ->
  (exists w',
     saveToServer env r textToSave w = Some w' /\
     fetches w' = (fetches w + 3)%nat /\
     waits w' = (waits w ++ [1000%Z; 1000%Z])%list /\
     storage w' = storage w /\
     toasts w' = toasts w /\
     events w' = (events w ++
       [Requested; Waited 1000; Requested; Waited 1000; Requested])%list /\
     authErrorSet w' = authErrorSet w /\
     created w' = created w /\
     (truthy (trim textToSave) = true ->
      handleManualSave env r textToSave w = Some (clearTranscript w'))) /\
  (exists w0,
     saveToServer env
       (mkRender (userDetailsId r) (selectedLanguage r) (currentTranscript r)
                 (transcript r) false)
       textToSave w = Some w0 /\
     storage w0 =
       storeTranscriptLocally (dateNow env) (newDate env) (finalTextOf r textToSave)
         (Some (selectedLanguage r)) (Some user) (storage w)).
Proof.
  intros Htext Huser Htruthy Hflag Hall. split.
  - destruct (Hall 0%nat ltac:(lia)) as (m0 & H0 & A0).
    destruct (Hall 1%nat ltac:(lia)) as (m1 & H1 & A1).
    destruct (Hall 2%nat ltac:(lia)) as (m2 & H2 & A2).
    rewrite Nat.add_0_r in H0. rewrite Nat.add_1_r in H1.
    replace (fetches w + 2)%nat with (S (S (fetches w))) in H2 by lia.
    assert (Hsave : saveToServer env r textToSave w =
              Some (setServerSaving false
                      (fetched (sleep 1000 (fetched (sleep 1000
                         (fetched (setServerSaving true w)))))))).
    { unfold saveToServer. rewrite Htext, Huser, Htruthy. cbn [negb].
      rewrite (attempts_all_transient _ _ _ _ _ m0 m1 m2); try done.
      cbn [savedSuccessfully lastError]. rewrite Hflag. by cbn [negb andb]. }
    eexists. split; [exact Hsave|].
    cbn [fetches waits storage toasts authErrorSet created events setServerSaving
         fetched sleep].
    split; [lia|]. split; [by rewrite <- app_assoc|].
    split; [done|]. split; [done|]. split; [by rewrite <- !app_assoc|].
    split; [done|]. split; [done|].
    intros Hedit. unfold handleManualSave. by rewrite Hedit, Hsave.
  - destruct (transient_failures_retry_twice_then_store_locally env
                (mkRender (userDetailsId r) (selectedLanguage r) (currentTranscript r)
                          (transcript r) false)
                textToSave user w Htext Huser Htruthy) as [Hclear _].
    destruct (Hclear eq_refl Hall) as (w0 & m & Hs & _ & _ & Hst & _).
    by exists w0.
Qed.

Lemma stale_authError_flag_loses_transcript_witness :
  exists w',
    handleManualSave offline signedInFlagged "hello world" emptyWorld = Some w' /\
    fetches w' = 3%nat /\ parsed (storage w') = [] /\ toasts w' = [] /\
    transcriptReset w' = true.
Proof.
  destruct (stale_authError_flag_loses_transcript
              offline signedInFlagged "hello world" "u1" emptyWorld) as [H _].
  - reflexivity.
  - reflexivity.
  - reflexivity.
  - reflexivity.
  - intros k _. exists "Failed to fetch". by split.
  - destruct H as (w' & _ & Hf & _ & Hst & Hto & _ & _ & _ & Hmanual).
    exists (clearTranscript w'). split; [by apply Hmanual|].
    cbn [clearTranscript fetches storage toasts transcriptReset].
    rewrite Hf, Hst, Hto. by repeat split.
Defined.

End RecorderFacts.

(** ** Validation of the content to save *)

Module ValidationFacts.
Import JS JSFacts Remote LocalStore SaveRoute Recorder Samples.

(** C6 (as stated, refuted): the endpoint tests that the transcript is
    present, not that it is non-blank. A transcript of one space passes: both
    rows are inserted and the answer is the success body. *)
Lemma blank_transcript_is_saved_by_endpoint :
  ~ (forall (env : Remote.Env) (req : SaveRequest) (db : Db) (content_ : string),
        SaveRoute.transcript req = Some content_ ->
        trim content_ = "" ->
        fst (POST env req db) = db /\ status (snd (POST env req db)) = 400%nat).
Proof.
  intros H.
  destruct (H healthy blankRequest emptyDb " " eq_refl eq_refl) as [_ Hs].
  vm_compute in Hs. discriminate Hs.
Qed.

(** C6 (amended): content that is empty after trimming never leaves the
    recorder: saveToServer returns at once with the world untouched (no
    request, no write to the local store, no wait, no retry), and
    handleManualSave, its caller, reports it with the one notification that an
    empty transcript cannot be saved. The endpoint rejects an absent or empty
    transcript with status 400 before the session is read and before any
    statement reaches the store. *)
Theorem empty_content_is_rejected_before_any_io :
  (forall (env : Recorder.Env) (r : Render) (textToSave : string) (w : World),
      trim (finalTextOf r textToSave) = "" ->
      saveToServer env r textToSave w = Some w) /\
  (forall (env : Recorder.Env) (r : Render) (editedTranscript : string) (w : World),
      trim editedTranscript = "" ->
      handleManualSave env r editedTranscript w =
        Some (toast (mkToast ToastError "Cannot save empty transcript" None) w)) /\
  (forall (env : Remote.Env) (req : SaveRequest) (db : Db),
      SaveRoute.transcript req = None \/ SaveRoute.transcript req = Some "" ->
      POST env req db = (db, mkResponse 400 (ErrorBody "Transcript is required"))).
Proof.
  split; [|split].
  - intros env r t w H. unfold saveToServer. by rewrite H.
  - intros env r t w H. unfold handleManualSave. by rewrite H.
  - intros env req db [H|H]; unfold POST; by rewrite H.
Qed.

Lemma empty_content_is_rejected_before_any_io_witness :
  saveToServer offline signedIn "   " emptyWorld = Some emptyWorld /\
  status (snd (POST healthy (mkSaveRequest (Some "") None (Some "u1") None) emptyDb))
    = 400%nat.
Proof.
  destruct empty_content_is_rejected_before_any_io as (H1 & _ & H3).
  split.
  - apply H1. reflexivity.
  - rewrite H3; [reflexivity | by right].
Defined.

End ValidationFacts.

(** ** The read-through cache *)

Module CachedServiceFacts.
Import JS JSFacts Remote RemoteFacts TranscriptService CachedService Samples.

Lemma isCacheExpired_false dateNow ts :
  isCacheExpired dateNow ts = false <-> (dateNow - ts <= CACHE_TTL)%Z.
Proof. unfold isCacheExpired. destruct (Z.gtb_spec (dateNow - ts) CACHE_TTL); split; (done || lia). Qed.

Lemma isCacheExpired_true dateNow ts :
  isCacheExpired dateNow ts = true <-> (dateNow - ts > CACHE_TTL)%Z.
Proof. unfold isCacheExpired. destruct (Z.gtb_spec (dateNow - ts) CACHE_TTL); split; (done || lia). Qed.

Lemma clearExpiredCache_lookup atSweep_ (cache : gmap string CacheEntry) k e :
  clearExpiredCache atSweep_ cache !! k = Some e <->
  cache !! k = Some e /\ (atSweep_ k - timestamp e <= CACHE_TTL)%Z.
Proof.
  unfold clearExpiredCache. rewrite map_lookup_filter_Some. simpl.
  by rewrite isCacheExpired_false.
Qed.

(** A lookup that finds an entry not older than the TTL answers from the
    cache and leaves cache and store as they are. *)
Lemma getTranscript_hit env clk i st e :
  transcriptCache st !! i = Some e ->
  (atLookup clk - timestamp e <= CACHE_TTL)%Z ->
  getTranscript env clk i st = (st, Returned (data e)).
Proof.
  intros He Hage. unfold getTranscript. rewrite He.
  by rewrite (proj2 (isCacheExpired_false _ _) Hage).
Qed.

Lemma getTranscript_miss env clk i st :
  (transcriptCache st !! i = None \/
   exists e, transcriptCache st !! i = Some e /\
             (atLookup clk - timestamp e > CACHE_TTL)%Z) ->
  getTranscript env clk i st = fetchTranscript env clk i st.
Proof.
  unfold getTranscript. intros [->|(e & -> & Hage)]; [done|].
  by rewrite (proj2 (isCacheExpired_true _ _) Hage).
Qed.











End CachedServiceFacts.

(** ** Ownership of the records a transition touches *)

Module OwnershipFacts.
Import JS JSFacts Remote RemoteFacts TranscriptService LocalStore LocalStoreFacts Samples.

Lemma map_unchanged {A} (c : A -> bool) (f : A -> A) l :
  (forall x, In x l -> c x = false) -> map (fun x => if c x then f x else x) l = l.
Proof.
  induction l as [|x l IH]; simpl; [done|]. intros H.
  rewrite (H x (or_introl eq_refl)). f_equal. apply IH. intros y Hy. apply H. by right.
Qed.

Lemma foreign_not_hit env i db r :
  foreign env i db -> In r (transcripts db) -> String.eqb (tid r) i && owns env r = false.
Proof.
  intros Hf Hr. destruct (String.eqb_spec (tid r) i) as [Heq|]; [|done]. simpl.
  unfold owns. apply bool_decide_eq_false. by apply Hf.
Qed.

Lemma sameTables_tick db : sameTables db (tick db).
Proof. done. Qed.

Lemma update_transcript_foreign env i change db :
  foreign env i db ->
  sameTables db (fst (update_transcript env i change db)) /\
  (faults env (requests db) = None -> snd (update_transcript env i change db) = inr tt).
Proof.
  intros Hf. unfold update_transcript, statement.
  destruct (faults env (requests db)); simpl; [done|].
  split; [|done]. split; [|done]. simpl.
  apply map_unchanged. intros r Hr. by apply (foreign_not_hit env i db).
Qed.

Lemma delete_transcript_foreign env i u db :
  foreign env i db ->
  sameTables db (fst (delete_transcript env i u db)) /\
  (faults env (requests db) = None -> snd (delete_transcript env i u db) = inr tt).
Proof.
  intros Hf. unfold delete_transcript, statement.
  destruct (faults env (requests db)); simpl; [done|].
  assert (Hhit : forall r, In r (transcripts db) ->
            String.eqb (tid r) i && owns env r &&
            match u with Some v => String.eqb (user_id r) v | None => true end = false).
  { intros r Hr. by rewrite (foreign_not_hit _ _ _ _ Hf Hr). }
  split; [|done]. split; simpl.
  - apply filter_all. intros r Hr. by rewrite (Hhit r Hr).
  - apply filter_all. intros c _. apply negb_true_iff.
    apply not_true_is_false. intros (r & Hr & Hc)%existsb_exists.
    by rewrite (Hhit r Hr) in Hc.
Qed.

Lemma insert_content_foreign env i c db :
  foreign env i db ->
  sameTables db (fst (insert_content env i c db)) /\
  exists e, snd (insert_content env i c db) = inl e.
Proof.
  intros Hf. unfold insert_content, statement.
  destruct (faults env (requests db)) as [e|]; simpl; [split; [done | by eexists]|].
  assert (Hown : owns_content env (tick db)
            (mkContentRow (uuid env (requests db)) i c (now env (requests db))) = false).
  { apply not_true_is_false. intros (r & Hr & Hc)%existsb_exists.
    simpl in Hr, Hc. by rewrite (foreign_not_hit _ _ _ _ Hf Hr) in Hc. }
  rewrite Hown. simpl. split; [done | by eexists].
Qed.

Lemma sameTables_trans db db1 db2 :
  sameTables db db1 -> sameTables db1 db2 -> sameTables db db2.
Proof. intros [H1 H2] [H3 H4]. split; congruence. Qed.

Lemma foreign_sameTables env i db db' :
  sameTables db db' -> foreign env i db -> foreign env i db'.
Proof. intros [Ht _] Hf r Hr. apply Hf. by rewrite <- Ht. Qed.

(** C8 (as stated, refuted): the local-store transitions take an id and no
    caller. The record that "alice" owns is moved to the trash by a request
    that any other caller makes. *)
Lemma moveToTrash_ignores_owner :
  ~ (forall (ls : localStorage) (caller : string) (now : Z) (i : string)
            (t : SavedTranscript),
        In t (parsed ls) -> id t = i -> userId t <> Some caller ->
        fst (moveToTrash now i ls) = false /\ snd (moveToTrash now i ls) = ls).
Proof.
  intros H.
  destruct (H sampleStorage "bob" 2000%Z "1700000000000" sampleActive) as [Hf _].
  - by left.
  - reflexivity.
  - discriminate.
  - vm_compute in Hf. discriminate Hf.
Qed.

(** C8 (amended): on the hosted store the row-level policies scope every
    transition to the session's user: a request for an id whose rows belong to
    someone else leaves both tables as they are. It is a content update that
    is then answered with an error (saveTranscriptContent returns false);
    title update, soft-delete, restore and permanent delete affect no row and,
    when the store answers, report success. The local-store transitions are not
    scoped: updateTranscript, moveToTrash, restoreFromTrash and
    permanentlyDelete succeed on any stored id, whoever owns the record. *)
Theorem transitions_are_scoped_by_row_policy_only
    (env : Env) (at_ : Z) (i s : string) (db : Db) (ls : localStorage) :
  (foreign env i db ->
   sameTables db (fst (saveTranscriptContent env at_ i s db)) /\
   snd (saveTranscriptContent env at_ i s db) = false /\
   sameTables db (fst (updateTranscriptTitle env at_ i s db)) /\
   sameTables db (fst (softDeleteTranscript env at_ i db)) /\
   sameTables db (fst (restoreTranscript env at_ i db)) /\
   sameTables db (fst (permanentlyDeleteTranscript env i db)) /\
   (faults env (requests db) = None ->
    snd (updateTranscriptTitle env at_ i s db) = true /\
    snd (softDeleteTranscript env at_ i db) = true /\
    snd (restoreTranscript env at_ i db) = true /\
    snd (permanentlyDeleteTranscript env i db) = true)) /\
  ((exists t, In t (parsed ls) /\ id t = i) ->
   fst (updateTranscript i s ls) = true /\
   fst (moveToTrash at_ i ls) = true /\
   fst (restoreFromTrash i ls) = true /\
   fst (permanentlyDelete i ls) = true).
Proof.
  split.
  - intros Hf.
    assert (Hupd : forall change,
      sameTables db (fst (update_transcript env i change db)) /\
      (faults env (requests db) = None ->
       snd (update_transcript env i change db) = inr tt))
      by (intros; by apply update_transcript_foreign).
    pose proof (delete_transcript_foreign env i None db Hf) as [Hd1 Hd2].
    unfold saveTranscriptContent, updateTranscriptTitle, softDeleteTranscript,
      restoreTranscript, permanentlyDeleteTranscript.
    pose proof (Hupd (set_updated_at at_)) as [Hu1 _].
    pose proof (Hupd (set_title s at_)) as [Ht1 Ht2].
    pose proof (Hupd (set_is_deleted true at_)) as [Hs1 Hs2].
    pose proof (Hupd (set_is_deleted false at_)) as [Hr1 Hr2].
    destruct (update_transcript env i (set_updated_at at_) db) as [db1 r1].
    destruct (update_transcript env i (set_title s at_) db) as [dbt rt].
    destruct (update_transcript env i (set_is_deleted true at_) db) as [dbs rs].
    destruct (update_transcript env i (set_is_deleted false at_) db) as [dbr rr].
    destruct (delete_transcript env i None db) as [dbd rd].
    simpl in *.
    pose proof (insert_content_foreign env i s db1 (foreign_sameTables _ _ _ _ Hu1 Hf))
      as [Hc1 [e Hc2]].
    destruct (insert_content env i s db1) as [db2 r2]. simpl in *. subst r2.
    split; [by apply (sameTables_trans db db1 db2)|].
    split; [done|]. split; [done|]. split; [done|]. split; [done|]. split; [done|].
    intros Hnf. rewrite (Ht2 Hnf), (Hs2 Hnf), (Hr2 Hnf), (Hd2 Hnf). done.
  - intros Hex. destruct (findIndex_present _ _ Hex) as [index Hidx].
    rewrite (updateTranscript_found _ _ _ _ Hidx), (moveToTrash_found _ _ _ _ Hidx),
      (restoreFromTrash_found _ _ _ Hidx), (permanentlyDelete_found _ _ Hex).
    done.
Qed.

Lemma transitions_are_scoped_by_row_policy_only_witness :
  snd (softDeleteTranscript otherUser 5 "t1" (CachedService.db cachedNote)) = true /\
  transcripts (fst (softDeleteTranscript otherUser 5 "t1" (CachedService.db cachedNote)))
    = [noteRow] /\
  fst (moveToTrash 5 "1700000000000" sampleStorage) = true.
Proof.
  destruct (transitions_are_scoped_by_row_policy_only otherUser 5 "t1" "x"
              (CachedService.db cachedNote) sampleStorage) as [Hremote _].
  destruct (transitions_are_scoped_by_row_policy_only otherUser 5 "1700000000000" "x"
              (CachedService.db cachedNote) sampleStorage) as [_ Hlocal].
  destruct Hremote as (_ & _ & _ & [Hs _] & _ & _ & Hok).
  - intros r [<-|[]] _. simpl. discriminate.
  - destruct Hlocal as (_ & Hm & _); [exists sampleActive; split; [by left | reflexivity]|].
    destruct (Hok eq_refl) as (_ & Hsoft & _).
    split; [exact Hsoft|]. split; [exact Hs | exact Hm].
Defined.

End OwnershipFacts.

(** ** The local store: listings, round trips and composition *)

Module LocalStoreMoreFacts.
Import JS JSFacts LocalStore LocalStoreFacts Samples.

Lemma filter_length_split {A} (p : A -> bool) l :
  length l = (length (List.filter p l) + length (List.filter (fun x => negb (p x)) l))%nat.
Proof.
  induction l as [|x l IH]; simpl; [done|].
  destruct (p x); simpl; lia.
Qed.

Lemma find_filter {A} (p q : A -> bool) l x :
  List.find p (List.filter q l) = Some x -> In x l /\ p x = true /\ q x = true.
Proof.
  intros H. apply find_some in H as [Hin Hp]. apply filter_In in Hin as [Hin Hq]. done.
Qed.

Lemma find_none_iff {A} (p : A -> bool) l :
  List.find p l = None <-> forall x, In x l -> p x = false.
Proof.
  split; [apply find_none|]. induction l as [|x l IH]; simpl; [done|]. intros H.
  rewrite (H x (or_introl eq_refl)). apply IH. intros y Hy. apply H. by right.
Qed.

(** storeTranscriptLocally appends one active record: it shows last in the
    owner's listing of saved transcripts, in no other user's listing, and in
    nobody's trash. *)
Theorem stored_transcript_is_listed_last
    (nowId nowTs : Z) (transcript : string) (lang u : option string) (ls : localStorage) :
  let ls' := storeTranscriptLocally nowId nowTs transcript lang u ls in
  let record := mkSavedTranscript (pretty nowId) transcript nowTs None
                                  (Some (default "en-US" lang)) u in
  parsed ls' = (parsed ls ++ [record])%list /\
  getSavedTranscripts u ls' = (getSavedTranscripts u ls ++ [record])%list /\
  (forall v, truthy_opt v = true -> v <> u ->
             getSavedTranscripts v ls' = getSavedTranscripts v ls) /\
  (forall v, getTrashTranscripts v ls' = getTrashTranscripts v ls) /\
  setItemCalls ls' = S (setItemCalls ls).
Proof.
  cbn zeta. split; [done|]. split; [|split; [|split; [|done]]].
  - unfold getSavedTranscripts, storeTranscriptLocally. cbn [parsed stored setItem].
    rewrite List.filter_app. f_equal. cbn.
    destruct (truthy_opt u); [|done]. unfold ownedBy. cbn. by rewrite bool_decide_eq_true_2.
  - intros v Hv Hne. unfold getSavedTranscripts, storeTranscriptLocally.
    cbn [parsed stored setItem]. rewrite List.filter_app. cbn. rewrite Hv.
    unfold ownedBy. cbn. rewrite bool_decide_eq_false_2 by congruence. by rewrite app_nil_r.
  - intros v. unfold getTrashTranscripts, storeTranscriptLocally.
    cbn [parsed stored setItem]. rewrite List.filter_app. cbn. by rewrite app_nil_r.
Qed.

(** Saved and trashed listings split the records of a user: every record
    getAllTranscripts returns is in exactly one of the two, and the sizes add
    up. *)
Theorem listings_partition_the_store (u : option string) (ls : localStorage) :
  (forall t, In t (getAllTranscripts u ls) <->
             In t (getSavedTranscripts u ls) \/ In t (getTrashTranscripts u ls)) /\
  (forall t, ~ (In t (getSavedTranscripts u ls) /\ In t (getTrashTranscripts u ls))) /\
  length (getAllTranscripts u ls) =
    (length (getSavedTranscripts u ls) + length (getTrashTranscripts u ls))%nat.
Proof.
  unfold getAllTranscripts, getSavedTranscripts, getTrashTranscripts.
  split; [|split].
  - intros t. destruct (truthy_opt u); rewrite !filter_In;
      destruct (isTrashed t); simpl; intuition congruence.
  - intros t. rewrite !filter_In. destruct (isTrashed t); simpl; intros [[_ ?] [_ ?]]; done.
  - destruct (truthy_opt u).
    + induction (parsed ls) as [|t l IH]; simpl; [done|].
      destruct (isTrashed t), (ownedBy u t); simpl; lia.
    + induction (parsed ls) as [|t l IH]; simpl; [done|].
      destruct (isTrashed t); simpl; lia.
Qed.

Lemma find_of_findIndex {A} (p : A -> bool) l index :
  findIndex p l = Some index -> List.find p l = l !! index.
Proof.
  revert index. induction l as [|x l IH]; intros index; simpl; [done|].
  destruct (p x); [by intros [= <-]|].
  destruct (findIndex p l) as [k|]; simpl; [|done]. intros [= <-]. by apply IH.
Qed.


Lemma findIndex_alter {A} (p : A -> bool) (f : A -> A) l index :
  (forall x, p (f x) = p x) -> findIndex p (alter f index l) = findIndex p l.
Proof.
  intros Hf. revert index. induction l as [|x l IH]; intros [|k]; try done.
  - change (alter f 0%nat (x :: l)) with (f x :: l). simpl. by rewrite Hf.
  - change (alter f (S k) (x :: l)) with (x :: alter f k l).
    cbn [findIndex]. by rewrite IH.
Qed.

Lemma alter_fixed {A} (f : A -> A) (l : list A) index x :
  l !! index = Some x -> f x = x -> alter f index l = l.
Proof.
  intros Hx Hf. rewrite (alter_as_insert f l index x Hx), Hf. by apply list_insert_id.
Qed.

Lemma filter_same_length {A} (p : A -> bool) l :
  length (List.filter p l) = length l -> List.filter p l = l.
Proof.
  induction l as [|x l IH]; simpl; [done|].
  pose proof (List.filter_length_le p l) as Hle. destruct (p x); simpl; intros Hlen; [|lia].
  f_equal. apply IH. lia.
Qed.

Lemma permanentlyDelete_parsed i ls :
  parsed (snd (permanentlyDelete i ls)) =
  List.filter (fun t => negb (hasId i t)) (parsed ls).
Proof.
  unfold permanentlyDelete. change (getAllTranscripts None ls) with (parsed ls).
  destruct (Nat.eqb_spec
    (length (List.filter (fun t => negb (hasId i t)) (parsed ls))) (length (parsed ls)))
    as [Heq|]; [|done].
  cbn [snd]. symmetry. by apply filter_same_length.
Qed.

(** restoreFromTrash undoes moveToTrash: for an id whose record is active,
    trashing and then restoring both succeed and give back the stored list as
    it was. *)
Theorem restore_undoes_moveToTrash (now : Z) (i : string) (ls : localStorage) :
  deletedAtOf i ls = Some None ->
  fst (moveToTrash now i ls) = true /\
  deletedAtOf i (snd (moveToTrash now i ls)) = Some (Some now) /\
  fst (restoreFromTrash i (snd (moveToTrash now i ls))) = true /\
  parsed (snd (restoreFromTrash i (snd (moveToTrash now i ls)))) = parsed ls.
Proof.
  unfold deletedAtOf. intros Hact.
  destruct (List.find (hasId i) (parsed ls)) as [t|] eqn:Hfind; [|done].
  injection Hact as Hact.
  destruct (findIndex_present i (parsed ls)) as [index Hidx].
  { apply find_some in Hfind as [Hin Hid]. exists t. split; [done|].
    by apply hasId_true. }
  assert (Ht : parsed ls !! index = Some t)
    by (by rewrite <- (find_of_findIndex _ _ _ Hidx)).
  rewrite (moveToTrash_found _ _ _ _ Hidx). cbn [fst snd].
  set (ls1 := setItem (alter (with_deletedAt (Some now)) index (parsed ls)) ls).
  assert (Hidx1 : findIndex (hasId i) (parsed ls1) = Some index).
  { subst ls1. cbn [parsed stored setItem]. rewrite findIndex_alter; [done|].
    apply hasId_with_deletedAt. }
  rewrite (restoreFromTrash_found _ _ _ Hidx1). cbn [fst snd].
  split; [done|]. split.
  - subst ls1. cbn [parsed stored setItem].
    rewrite (find_alter_found _ _ _ _ (hasId_with_deletedAt i (Some now)) Hidx).
    by rewrite Hfind.
  - split; [done|]. subst ls1. cbn [parsed stored setItem].
    rewrite list_alter_alter_eq. apply (alter_fixed _ _ _ t Ht).
    destruct t; simpl in *; by subst.
Qed.

Lemma restore_undoes_moveToTrash_witness :
  parsed (snd (restoreFromTrash "1700000000000"
                 (snd (moveToTrash 5 "1700000000000" sampleStorage))))
  = parsed sampleStorage.
Proof.
  apply (restore_undoes_moveToTrash 5 "1700000000000" sampleStorage). reflexivity.
Defined.

(** updateTranscript rewrites the text of the first record with the id and
    nothing else: the record read back by getTranscriptById carries the new
    text and its former id, timestamp, language, owner and deletedAt (a
    trashed record stays trashed), and every other slot of the stored list is
    as before. *)
Theorem updateTranscript_rewrites_text_only
    (i newText : string) (ls : localStorage) (t : SavedTranscript) :
  getTranscriptById i None ls = Some t ->
  fst (updateTranscript i newText ls) = true /\
  getTranscriptById i None (snd (updateTranscript i newText ls))
    = Some (mkSavedTranscript (id t) newText (timestamp t) (deletedAt t)
                              (language t) (userId t)) /\
  exists index,
    parsed ls !! index = Some t /\
    parsed (snd (updateTranscript i newText ls)) =
      <[index := with_text newText t]> (parsed ls).
Proof.
  unfold getTranscriptById. rewrite getAllTranscripts_all. intros Hfind.
  destruct (findIndex_present i (parsed ls)) as [index Hidx].
  { apply find_some in Hfind as [Hin Hid]. exists t. split; [done|].
    by apply hasId_true. }
  assert (Ht : parsed ls !! index = Some t)
    by (by rewrite <- (find_of_findIndex _ _ _ Hidx)).
  rewrite (updateTranscript_found _ _ _ _ Hidx). cbn [fst snd].
  split; [done|]. split.
  - unfold getTranscriptById. rewrite getAllTranscripts_all. cbn [parsed stored setItem].
    rewrite (find_alter_found _ _ _ _ (hasId_with_text i newText) Hidx).
    by rewrite Hfind.
  - exists index. split; [done|]. cbn [parsed stored setItem]. by apply alter_as_insert.
Qed.

Lemma updateTranscript_rewrites_text_only_witness :
  getTranscriptById "1700000000001" None
    (snd (updateTranscript "1700000000001" "new note" sampleStorage))
  = Some (mkSavedTranscript "1700000000001" "new note" 1700000000001
            (Some 1700000500000%Z) (Some "en-US") (Some "bob")).
Proof.
  apply (updateTranscript_rewrites_text_only "1700000000001" "new note" sampleStorage
           sampleTrashed).
  reflexivity.
Defined.

(** permanentlyDelete removes every record that carries the id, not only the
    first, and keeps the others in their order: afterwards getTranscriptById
    finds nothing under the id for any user filter, and a second
    permanentlyDelete of the id returns false. *)
Theorem permanentlyDelete_removes_every_match (i : string) (ls : localStorage) :
  let ls' := snd (permanentlyDelete i ls) in
  parsed ls' = List.filter (fun t => negb (hasId i t)) (parsed ls) /\
  (forall t, In t (parsed ls') <-> In t (parsed ls) /\ id t <> i) /\
  (forall u, getTranscriptById i u ls' = None) /\
  permanentlyDelete i ls' = (false, ls').
Proof.
  cbn zeta. pose proof (permanentlyDelete_parsed i ls) as Hp.
  assert (Hnone : forall t, In t (parsed (snd (permanentlyDelete i ls))) -> id t <> i).
  { intros t. rewrite Hp, filter_In. intros [_ H%negb_true_iff]. by apply hasId_false. }
  split; [done|]. split; [|split].
  - intros t. rewrite Hp, filter_In, negb_true_iff, hasId_false. done.
  - intros u. unfold getTranscriptById. apply find_none_iff. intros t Ht.
    apply hasId_false, Hnone. unfold getAllTranscripts in Ht.
    destruct (truthy_opt u); [by apply filter_In in Ht as [? _] | done].
  - unfold permanentlyDelete at 1. rewrite getAllTranscripts_all.
    rewrite (filter_drops_nothing i _ Hnone). by rewrite Nat.eqb_refl.
Qed.

(** With distinct ids, two stored records with the same id are the same slot. *)
Lemma unique_id_slot (l : list SavedTranscript) j k t t' :
  NoDup (map id l) -> l !! j = Some t -> l !! k = Some t' -> id t = id t' -> j = k.
Proof.
  intros Hnd Hj Hk Hid. apply (NoDup_lookup (map id l) j k (id t) Hnd).
  - change (map id l) with (id <$> l). by rewrite list_lookup_fmap, Hj.
  - change (map id l) with (id <$> l). by rewrite list_lookup_fmap, Hk, Hid.
Qed.

(** moveToTrash moves the record from the saved listing to the trash listing:
    where the stored ids are distinct, no saved listing shows the id any more,
    and the record, stamped with the instant of the call, is in the trash
    listing of its owner and in the unfiltered one. *)
Theorem moveToTrash_moves_between_listings
    (now : Z) (i : string) (ls : localStorage) (t : SavedTranscript) :
  NoDup (map id (parsed ls)) -> In t (parsed ls) -> id t = i ->
  let ls' := snd (moveToTrash now i ls) in
  (forall u t', In t' (getSavedTranscripts u ls') -> id t' <> i) /\
  In (with_deletedAt (Some now) t) (getTrashTranscripts None ls') /\
  In (with_deletedAt (Some now) t) (getTrashTranscripts (userId t) ls').
Proof.
  intros Hnd Hin Hid. cbn zeta.
  destruct (findIndex_present i (parsed ls)) as [index Hidx]; [by exists t|].
  destruct (findIndex_Some _ _ _ Hidx) as (t0 & Ht0 & Hp0 & _).
  apply hasId_true in Hp0.
  apply list_elem_of_In, list_elem_of_lookup_1 in Hin as [j Hj].
  assert (j = index) as -> by (apply (unique_id_slot _ _ _ t t0 Hnd Hj Ht0); congruence).
  assert (t0 = t) as -> by congruence.
  rewrite (moveToTrash_found _ _ _ _ Hidx). cbn [snd].
  assert (Hparsed : parsed (setItem (alter (with_deletedAt (Some now)) index (parsed ls)) ls)
                    = <[index := with_deletedAt (Some now) t]> (parsed ls)).
  { cbn [parsed stored setItem]. by apply alter_as_insert. }
  assert (Hnew : In (with_deletedAt (Some now) t)
                    (<[index := with_deletedAt (Some now) t]> (parsed ls))).
  { apply list_elem_of_In, (list_elem_of_lookup_2 _ index).
    apply list_lookup_insert_eq. by apply lookup_lt_Some in Ht0. }
  split; [|split].
  - intros u t'. unfold getSavedTranscripts. rewrite Hparsed, filter_In.
    intros [Hin' Hact] Hid'.
    apply list_elem_of_In, list_elem_of_lookup_1 in Hin' as [k Hk].
    destruct (decide (index = k)) as [<-|Hne].
    + rewrite list_lookup_insert_eq in Hk by (by apply lookup_lt_Some in Ht0).
      injection Hk as <-. done.
    + rewrite list_lookup_insert_ne in Hk by done.
      apply Hne. apply (unique_id_slot _ _ _ t t' Hnd Ht0 Hk). congruence.
  - unfold getTrashTranscripts. rewrite Hparsed, filter_In. by split.
  - unfold getTrashTranscripts. rewrite Hparsed, filter_In. split; [done|]. cbn.
    destruct (truthy_opt (userId t)); [|done]. unfold ownedBy. cbn.
    by rewrite bool_decide_eq_true_2.
Qed.

Lemma moveToTrash_moves_between_listings_witness :
  In (with_deletedAt (Some 5%Z) sampleActive)
     (getTrashTranscripts (Some "alice")
        (snd (moveToTrash 5 "1700000000000" sampleStorage))).
Proof.
  apply (moveToTrash_moves_between_listings 5 "1700000000000" sampleStorage sampleActive).
  - apply (bool_decide_unpack (NoDup (map id (parsed sampleStorage)))).
    vm_compute. exact I.
  - by left.
  - reflexivity.
Defined.

(** formatDate counts whole days: the days elapsed and the days left always
    add up to 30, a record of less than a day shows 30 days left, each further
    full day takes one off, and nothing stops the count at 0. *)
Theorem daysLeft_counts_whole_days (now date : Z) :
  (daysAgo now date + daysLeft now date = 30)%Z /\
  ((0 <= now - date < msPerDay)%Z -> daysLeft now date = 30%Z) /\
  daysLeft (now + msPerDay) date = (daysLeft now date - 1)%Z /\
  ((now - date >= 31 * msPerDay)%Z -> (daysLeft now date < 0)%Z).
Proof.
  unfold daysLeft, daysAgo, msPerDay. split; [lia|]. split; [|split].
  - intros H. rewrite Z.div_small; lia.
  - replace (now + 1000 * 60 * 60 * 24 - date)%Z
      with ((now - date) + 1 * (1000 * 60 * 60 * 24))%Z by lia.
    rewrite Z.div_add by lia. lia.
  - intros H. assert (31 <= (now - date) / (1000 * 60 * 60 * 24))%Z; [|lia].
    apply Z.div_le_lower_bound; lia.
Qed.

Lemma stored_transcript_is_listed_last_witness :
  getSavedTranscripts (Some "bob")
    (storeTranscriptLocally 7 7 "hi" None (Some "alice") sampleStorage)
  = getSavedTranscripts (Some "bob") sampleStorage.
Proof.
  destruct (stored_transcript_is_listed_last 7 7 "hi" None (Some "alice") sampleStorage)
    as (_ & _ & Hother & _).
  apply Hother; [reflexivity | discriminate].
Defined.

Lemma listings_partition_the_store_witness :
  In sampleTrashed (getSavedTranscripts None sampleStorage) \/
  In sampleTrashed (getTrashTranscripts None sampleStorage).
Proof.
  destruct (listings_partition_the_store None sampleStorage) as (Hsplit & _).
  apply Hsplit. right. left. reflexivity.
Defined.

Lemma permanentlyDelete_removes_every_match_witness :
  In sampleActive (parsed (snd (permanentlyDelete "1700000000001" sampleStorage))).
Proof.
  destruct (permanentlyDelete_removes_every_match "1700000000001" sampleStorage)
    as (_ & Hkept & _).
  apply Hkept. split; [left; reflexivity | discriminate].
Defined.

Lemma daysLeft_counts_whole_days_witness :
  (daysLeft (1700000500000 + 31 * msPerDay) 1700000500000 < 0)%Z.
Proof.
  destruct (daysLeft_counts_whole_days (1700000500000 + 31 * msPerDay) 1700000500000)
    as (_ & _ & _ & Hpast).
  apply Hpast. lia.
Defined.

End LocalStoreMoreFacts.

(** ** The recorder's save operation: the other ways it ends *)

Module RecorderMoreFacts.
Import JS JSFacts LocalStore Recorder RecorderFacts Samples.

Lemma saveTranscriptToServer_accepted env text l user w data :
  truthy user = true ->
  network env (fetches w) = Responded true data ->
  saveTranscriptToServer env text l (Some user) w =
    (mkSaveResult (data_success data) (data_message data) (data_transcriptId data),
     with_storage
       (storeTranscriptLocally (dateNow env) (newDate env) text (Some l) (Some user)
                               (storage w))
       (fetched w)).
Proof.
  intros Hu Hn. unfold saveTranscriptToServer. simpl. by rewrite Hu, Hn.
Qed.

(** One turn of the loop on an accepted request that reports success. *)
Lemma attempts_success fuel env r ft user retries le w data :
  truthy user = true ->
  (retries <= maxRetries)%nat ->
  network env (fetches w) = Responded true data ->
  data_success data = true ->
  attempts (S fuel) env r ft user retries le w =
  Some (mkLoopEnd true le,
        onTranscriptCreated (data_transcriptId data)
          (toast (mkToast ToastSuccess "Saved to server"
                    (Some "Your transcript has been saved successfully"))
             (clearTranscript
                (with_storage
                   (storeTranscriptLocally (dateNow env) (newDate env) ft
                      (Some (selectedLanguage r)) (Some user) (storage w))
                   (fetched w))))).
Proof.
  intros Hu Hle Hn Hs. cbn [attempts].
  destruct (Nat.leb_spec retries maxRetries) as [_|Hgt]; [|lia]. cbn [negb].
  rewrite (saveTranscriptToServer_accepted _ _ _ _ _ _ Hu Hn).
  cbn [success transcriptId]. by rewrite Hs.
Qed.

(** The world once a successful save has called back and cleared its flag. *)
Lemma saved_world (i : option string) (x : World) :
  fetches (setServerSaving false (onTranscriptCreated i x)) = fetches x /\
  waits (setServerSaving false (onTranscriptCreated i x)) = waits x /\
  storage (setServerSaving false (onTranscriptCreated i x)) = storage x /\
  toasts (setServerSaving false (onTranscriptCreated i x)) = toasts x /\
  created (setServerSaving false (onTranscriptCreated i x)) =
    (created x ++ match i with
                  | Some s => if truthy s then [s] else []
                  | None => []
                  end)%list /\
  authErrorSet (setServerSaving false (onTranscriptCreated i x)) = authErrorSet x.
Proof.
  unfold onTranscriptCreated. destruct i as [s|]; [destruct (truthy s)|];
    cbn; by rewrite ?app_nil_r.
Qed.

Lemma onTranscriptCreated_frame i w :
  storage (onTranscriptCreated i w) = storage w /\
  toasts (onTranscriptCreated i w) = toasts w /\
  waits (onTranscriptCreated i w) = waits w /\
  fetches (onTranscriptCreated i w) = fetches w /\
  events (onTranscriptCreated i w) = events w.
Proof. unfold onTranscriptCreated. destruct i as [s|]; [|done]. by destruct (truthy s). Qed.

(** Without a signed-in user saveToServer stays local: it sends no request
    and waits for nothing, appends the transcript to the local store under
    the absent owner, and shows the one notice that it was saved locally. *)
Theorem saveToServer_without_user_stays_local
    (env : Env) (r : Render) (textToSave : string) (w : World) :
  truthy (trim (finalTextOf r textToSave)) = true ->
  truthy_opt (userDetailsId r) = false ->
  exists w',
    saveToServer env r textToSave w = Some w' /\
    fetches w' = fetches w /\ waits w' = waits w /\
    storage w' =
      storeTranscriptLocally (dateNow env) (newDate env) (finalTextOf r textToSave)
        (Some (selectedLanguage r)) (userDetailsId r) (storage w) /\
    events w' = (events w ++
      [StoredLocally;
       Notified (mkToast ToastInfo "Saved locally"
                   (Some "Log in to save transcripts to your account"))])%list /\
    authErrorSet w' = authErrorSet w /\ serverSaving w' = false.
Proof.
  intros Htext Hnouser. unfold saveToServer. rewrite Htext. cbn [negb].
  rewrite storeLocally_stores by done.
  destruct (userDetailsId r) as [user|] eqn:Hu.
  - simpl in Hnouser. rewrite Hnouser. eexists. split; [reflexivity|].
    cbn. by rewrite <- app_assoc.
  - eexists. split; [reflexivity|]. cbn. by rewrite <- app_assoc.
Qed.

Lemma saveToServer_without_user_stays_local_witness :
  exists w',
    saveToServer offline (mkRender None "en-US" "" "" false) "hello world" emptyWorld
      = Some w' /\
    fetches w' = 0%nat /\ setItemCalls (storage w') = 1%nat.
Proof.
  destruct (saveToServer_without_user_stays_local offline
              (mkRender None "en-US" "" "" false) "hello world" emptyWorld)
    as (w' & Hs & Hf & _ & Hst & _); try reflexivity.
  exists w'. rewrite Hst. by repeat split.
Defined.

(** A save that the endpoint accepts after k transient failures (k at most
    2) sends k+1 requests with a wait of one second before each retry, shows
    the success notification and no other, and mirrors the transcript into the
    local store under the signed-in owner; the local fallback is not taken,
    whatever the authError flag. The id the endpoint returned is handed to
    onTranscriptCreated. *)
Theorem accepted_save_is_mirrored_locally
    (env : Env) (r : Render) (textToSave user : string) (w : World)
    (k : nat) (data : ResponseData) :
  truthy (trim (finalTextOf r textToSave)) = true ->
  userDetailsId r = Some user -> truthy user = true ->
  (k <= 2)%nat ->
  (forall j, (j < k)%nat -> transientFailure (network env (fetches w + j))) ->
  network env (fetches w + k) = Responded true data ->
  data_success data = true ->
  exists w',
    saveToServer env r textToSave w = Some w' /\
    fetches w' = (fetches w + k + 1)%nat /\
    waits w' = (waits w ++ repeat 1000%Z k)%list /\
    storage w' =
      storeTranscriptLocally (dateNow env) (newDate env) (finalTextOf r textToSave)
        (Some (selectedLanguage r)) (Some user) (storage w) /\
    toasts w' = (toasts w ++
      [mkToast ToastSuccess "Saved to server"
         (Some "Your transcript has been saved successfully")])%list /\
    created w' = (created w ++
      match data_transcriptId data with
      | Some i => if truthy i then [i] else []
      | None => []
      end)%list /\
    authErrorSet w' = authErrorSet w.
Proof.
  intros Htext Huser Htruthy Hk Hbefore Hacc Hsucc.
  unfold saveToServer. rewrite Htext, Huser, Htruthy. cbn [negb].
  unfold maxRetries at 1.
  destruct k as [|[|[|k]]]; [| | |lia].
  - rewrite Nat.add_0_r in Hacc.
    rewrite (attempts_success _ _ _ _ _ _ _ _ data); [|done|unfold maxRetries; lia|done..].
    eexists. split; [reflexivity|]. cbn [savedSuccessfully negb andb].
    match goal with |- context [setServerSaving false (onTranscriptCreated ?i ?x)] =>
      destruct (saved_world i x) as (-> & -> & -> & -> & -> & ->)
    end.
    cbn. rewrite app_nil_r. split; [lia|]. done.
  - destruct (Hbefore 0%nat ltac:(lia)) as (m0 & H0 & A0).
    rewrite Nat.add_0_r in H0. rewrite Nat.add_1_r in Hacc.
    rewrite (attempts_transient _ _ _ _ _ _ _ _ m0); [|done|unfold maxRetries; lia|done..].
    rewrite (attempts_success _ _ _ _ _ _ _ _ data); [|done|unfold maxRetries; lia|done..].
    eexists. split; [reflexivity|]. cbn [savedSuccessfully negb andb].
    match goal with |- context [setServerSaving false (onTranscriptCreated ?i ?x)] =>
      destruct (saved_world i x) as (-> & -> & -> & -> & -> & ->)
    end.
    cbn. split; [lia|]. done.
  - destruct (Hbefore 0%nat ltac:(lia)) as (m0 & H0 & A0).
    destruct (Hbefore 1%nat ltac:(lia)) as (m1 & H1 & A1).
    rewrite Nat.add_0_r in H0. rewrite Nat.add_1_r in H1.
    replace (fetches w + 2)%nat with (S (S (fetches w))) in Hacc by lia.
    rewrite (attempts_transient _ _ _ _ _ _ _ _ m0); [|done|unfold maxRetries; lia|done..].
    rewrite (attempts_transient _ _ _ _ _ _ _ _ m1); [|done|unfold maxRetries; lia|done..].
    rewrite (attempts_success _ _ _ _ _ _ _ _ data); [|done|unfold maxRetries; lia|done..].
    eexists. split; [reflexivity|]. cbn [savedSuccessfully negb andb].
    match goal with |- context [setServerSaving false (onTranscriptCreated ?i ?x)] =>
      destruct (saved_world i x) as (-> & -> & -> & -> & -> & ->)
    end.
    cbn. split; [lia|]. split; [by rewrite <- app_assoc|]. done.
Qed.

Lemma accepted_save_is_mirrored_locally_witness :
  exists w',
    saveToServer flaky signedIn "hello world" emptyWorld = Some w' /\
    fetches w' = 2%nat /\ waits w' = [1000%Z] /\ created w' = ["row-0"] /\
    setItemCalls (storage w') = 1%nat.
Proof.
  destruct (accepted_save_is_mirrored_locally flaky signedIn "hello world" "u1" emptyWorld
              1 (mkResponseData true (Some "Transcript saved successfully") None
                   (Some "row-0")))
    as (w' & Hs & Hf & Hw & Hst & _ & Hc & _); try reflexivity.
  - lia.
  - intros j Hj. assert (j = 0%nat) as -> by lia. exists "Failed to fetch". by split.
  - exists w'. rewrite Hst. by repeat split.
Defined.

Lemma saveTranscriptToServer_frame env text l user w :
  truthy user = true ->
  fetches (snd (saveTranscriptToServer env text l (Some user) w)) = S (fetches w) /\
  waits (snd (saveTranscriptToServer env text l (Some user) w)) = waits w.
Proof.
  intros Hu. unfold saveTranscriptToServer. simpl. rewrite Hu. simpl.
  destruct (network env (fetches w)) as [[|] d|m]; by simpl.
Qed.

(** The loop, from any count of retries made: each turn sends one request,
    and a wait follows a failed turn only when another turn is due. *)
Lemma attempts_bounded fuel env r ft user retries le w e w' :
  truthy user = true ->
  attempts fuel env r ft user retries le w = Some (e, w') ->
  exists n k,
    fetches w' = (fetches w + n)%nat /\
    waits w' = (waits w ++ repeat 1000%Z k)%list /\
    (n <= 3 - retries)%nat /\ (k <= 2 - retries)%nat /\ (k <= n)%nat /\
    (savedSuccessfully e = true -> (1 <= n)%nat).
Proof.
  intros Hu. revert retries le w.
  induction fuel as [|fuel IH]; intros retries le w; [done|].
  cbn [attempts].
  destruct (Nat.leb_spec retries maxRetries) as [Hle|Hgt]; cbn [negb].
  2:{ intros [= <- <-]. exists 0%nat, 0%nat. cbn. rewrite app_nil_r.
      repeat split; (done || lia). }
  unfold maxRetries in Hle.
  destruct (saveTranscriptToServer_frame env ft (selectedLanguage r) user w Hu) as [Hf Hw].
  destruct (saveTranscriptToServer env ft (selectedLanguage r) (Some user) w)
    as [result w1]. cbn [snd] in Hf, Hw.
  destruct (success result).
  { intros [= <- <-]. exists 1%nat, 0%nat.
    destruct (onTranscriptCreated_frame (transcriptId result)
                (toast (mkToast ToastSuccess "Saved to server"
                   (Some "Your transcript has been saved successfully"))
                   (clearTranscript w1))) as (_ & _ & -> & -> & _).
    cbn. rewrite Hf, Hw, app_nil_r. repeat split; (done || lia). }
  destruct (isAuthFailure _).
  { intros [= <- <-]. exists 1%nat, 0%nat. cbn. rewrite Hf, Hw, app_nil_r.
    repeat split; (done || lia). }
  intros Hrec. apply IH in Hrec as (n & k & Hn & Hk & Bn & Bk & Bkn & Bs).
  destruct (Nat.leb_spec (S retries) maxRetries) as [Hle'|Hgt'];
    unfold maxRetries in *; cbn in Hn, Hk.
  - exists (S n), (S k). rewrite Hn, Hk, Hf, Hw, <- app_assoc.
    repeat split; (done || lia).
  - exists (S n), k. rewrite Hn, Hk, Hf, Hw. repeat split; (done || lia).
Qed.

(** Whatever the network answers, one call of saveToServer sends at most
    three requests and waits at most twice, one second each time and never
    more often than it sent requests. *)
Theorem saveToServer_effort_is_bounded
    (env : Env) (r : Render) (textToSave : string) (w w' : World) :
  saveToServer env r textToSave w = Some w' ->
  exists n k,
    fetches w' = (fetches w + n)%nat /\
    waits w' = (waits w ++ repeat 1000%Z k)%list /\
    (n <= 3)%nat /\ (k <= 2)%nat /\ (k <= n)%nat.
Proof.
  unfold saveToServer.
  destruct (negb (truthy (trim (finalTextOf r textToSave)))).
  { intros [= <-]. exists 0%nat, 0%nat. cbn. rewrite app_nil_r. repeat split; (done || lia). }
  assert (Hlocal : forall t x,
    fetches (setServerSaving false
               (toast t (storeLocally env r (finalTextOf r textToSave) x))) = fetches x /\
    waits (setServerSaving false
             (toast t (storeLocally env r (finalTextOf r textToSave) x))) = waits x).
  { intros t x. destruct (storeLocally_frame env r (finalTextOf r textToSave) x)
      as (H1 & H2 & _). cbn. by rewrite H1, H2. }
  destruct (userDetailsId r) as [user|].
  2:{ intros [= <-]. destruct (Hlocal (mkToast ToastInfo "Saved locally"
        (Some "Log in to save transcripts to your account")) (setServerSaving true w))
        as [-> ->].
      exists 0%nat, 0%nat. cbn. rewrite app_nil_r. repeat split; (done || lia). }
  destruct (truthy user) eqn:Hu.
  2:{ intros [= <-]. destruct (Hlocal (mkToast ToastInfo "Saved locally"
        (Some "Log in to save transcripts to your account")) (setServerSaving true w))
        as [-> ->].
      exists 0%nat, 0%nat. cbn. rewrite app_nil_r. repeat split; (done || lia). }
  destruct (attempts (S (S maxRetries)) env r (finalTextOf r textToSave) user 0 None
              (setServerSaving true w)) as [[loopEnd w1]|] eqn:Hloop; [|done].
  intros [= <-].
  apply attempts_bounded in Hloop as (n & k & Hn & Hk & Bn & Bk & Bkn & _); [|done].
  exists n, k.
  match goal with |- context [setServerSaving false (if ?b then toast ?t _ else ?x)] =>
    destruct (after_loop_frame env r (finalTextOf r textToSave) b t x) as (-> & -> & _)
  end.
  rewrite Hn, Hk. cbn. repeat split; (done || lia).
Qed.

Lemma saveToServer_effort_is_bounded_witness :
  exists n k,
    (n <= 3)%nat /\ (k <= 2)%nat /\
    fetches (default emptyWorld (saveToServer offline signedIn "hello world" emptyWorld))
      = n /\
    length (waits (default emptyWorld
                     (saveToServer offline signedIn "hello world" emptyWorld))) = k.
Proof.
  destruct (saveToServer_effort_is_bounded offline signedIn "hello world" emptyWorld
              (default emptyWorld (saveToServer offline signedIn "hello world" emptyWorld)))
    as (n & k & Hn & Hk & Bn & Bk & _); [reflexivity|].
  exists n, k. rewrite Hn, Hk. cbn. rewrite repeat_length. by repeat split.
Defined.

End RecorderMoreFacts.

(** ** The save endpoint: what it touches and how its answers are taken *)

Module SaveRouteMoreFacts.
Import JS JSFacts Remote RemoteFacts SaveRoute Samples.

Lemma delete_transcript_keeps_other_ids env i u db r :
  In r (transcripts db) -> tid r <> i ->
  In r (transcripts (fst (delete_transcript env i u db))).
Proof.
  intros Hr Hne. unfold delete_transcript, statement.
  destruct (faults env (requests db)); simpl; [done|].
  apply filter_In. split; [done|]. apply negb_true_iff.
  apply String.eqb_neq in Hne. by rewrite Hne.
Qed.

(** POST reaches the store only for a well-formed request whose userId is
    the session's user: in every other case the store is exactly as it was,
    no statement sent. *)
Theorem POST_reaches_store_only_for_session_user
    (env : Env) (req : SaveRequest) (db : Db) :
  fst (POST env req db) <> db ->
  exists text owner user,
    transcript req = Some text /\ truthy text = true /\
    userId req = Some owner /\ truthy owner = true /\
    session env = inr (Some user) /\ uid user = owner.
Proof.
  unfold POST. intros H.
  destruct (transcript req) as [text|]; [|done].
  destruct (truthy text) eqn:Ht; [|done]. cbn [negb] in H.
  destruct (userId req) as [owner|]; [|done].
  destruct (truthy owner) eqn:Ho; [|done]. cbn [negb] in H.
  destruct (session env) as [e|[user|]]; [done| |done].
  destruct (String.eqb_spec (uid user) owner) as [Heq|]; [|done].
  by exists text, owner, user.
Qed.

Lemma POST_reaches_store_only_for_session_user_witness :
  exists text owner user,
    transcript helloRequest = Some text /\ truthy text = true /\
    userId helloRequest = Some owner /\ truthy owner = true /\
    session healthy = inr (Some user) /\ uid user = owner.
Proof.
  apply (POST_reaches_store_only_for_session_user healthy helloRequest emptyDb).
  vm_compute. discriminate.
Defined.

(** POST never removes or alters a transcript row that was there before the
    request, whatever the store answers, and leaves at most one row more. *)
Theorem POST_keeps_existing_rows (env : Env) (req : SaveRequest) (db : Db) :
  (forall r, In r (transcripts db) -> In r (transcripts (fst (POST env req db)))) /\
  (length (transcripts (fst (POST env req db))) <= S (length (transcripts db)))%nat.
Proof.
  unfold POST.
  destruct (transcript req) as [text|]; [|by split; [|simpl; lia]].
  destruct (truthy text); cbn [negb]; [|by split; [|simpl; lia]].
  destruct (userId req) as [owner|]; [|by split; [|simpl; lia]].
  destruct (truthy owner); cbn [negb]; [|by split; [|simpl; lia]].
  destruct (session env) as [e|[user|]]; [by split; [|simpl; lia]| |by split; [|simpl; lia]].
  destruct (negb (String.eqb (uid user) owner)); [by split; [|simpl; lia]|].
  destruct (insert_transcript env _ owner _ db) as [db1 [e1|newId]] eqn:Hins.
  { cbn [fst]. unfold insert_transcript, statement in Hins.
    destruct (faults env (requests db)); [by injection Hins as <- _; split; [|simpl; lia]|].
    simpl in Hins. destruct (owns env _); simpl in Hins;
      [|by injection Hins as <- _; split; [|simpl; lia]].
    destruct (existsb _ (transcripts db)); [|done].
    by injection Hins as <- _; split; [|simpl; lia]. }
  destruct (insert_transcript_ok _ _ _ _ _ _ _ Hins)
    as (_ & _ & Hfresh & row & Hrid & _ & ->).
  destruct (insert_content env newId text _) as [db2 [e2|[]]] eqn:Hcon.
  - apply insert_content_failed in Hcon. subst db2.
    destruct (delete_transcript env newId None _) as [db3 r3] eqn:Hdel.
    assert (Hdb3 : db3 = fst (delete_transcript env newId None
              (tick (mkDb (transcripts db ++ [row]) (transcript_contents db)
                          (S (requests db)))))) by (by rewrite Hdel).
    cbn [fst]. split.
    + intros r Hr. rewrite Hdb3. apply delete_transcript_keeps_other_ids.
      * simpl. apply in_or_app. by left.
      * by apply Hfresh.
    + rewrite Hdb3. unfold delete_transcript, statement. cbn.
      destruct (faults env _); cbn.
      * rewrite length_app. simpl. lia.
      * etransitivity; [apply List.filter_length_le|]. rewrite length_app. simpl. lia.
  - cbn [fst]. unfold insert_content, statement in Hcon.
    destruct (faults env _); [done|]. simpl in Hcon.
    destruct (owns_content env _ _); simpl in Hcon; [|done].
    destruct (existsb _ _); [done|]. injection Hcon as <-. simpl. split.
    + intros r Hr. apply in_or_app. by left.
    + rewrite length_app. simpl. lia.
Qed.

Lemma POST_keeps_existing_rows_witness :
  In noteRow (transcripts (fst (POST healthy helloRequest (CachedService.db cachedNote)))).
Proof.
  destruct (POST_keeps_existing_rows healthy helloRequest (CachedService.db cachedNote))
    as (Hkept & _).
  apply Hkept. left. reflexivity.
Defined.

End SaveRouteMoreFacts.

(** ** From the recorder through the endpoint to the cache *)

Module EndToEndFacts.
Import JS JSFacts Remote RemoteFacts SaveRoute CachedService Samples.

Lemma existsb_none {A} (p : A -> bool) l :
  (forall x, In x l -> p x = false) -> existsb p l = false.
Proof.
  intros H. apply not_true_is_false. intros (x & Hx & Hp)%existsb_exists.
  by rewrite (H x Hx) in Hp.
Qed.

Lemma filter_none {A} (p : A -> bool) l :
  (forall x, In x l -> p x = false) -> List.filter p l = [].
Proof.
  induction l as [|x l IH]; simpl; [done|]. intros H.
  rewrite (H x (or_introl eq_refl)). apply IH. intros y Hy. apply H. by right.
Qed.

Lemma auth_uid_session env user :
  session env = inr (Some user) -> auth_uid env = Some (uid user).
Proof. unfold auth_uid. by intros ->. Qed.

(** A save that the store accepts can be read back: on a store that answers,
    with identifiers that are fresh, POST answers 200 with the id of the new
    row, appends exactly one transcript row (owned by the session's user,
    titled as asked or "New Transcript", in the language asked or en-US) and
    one content row holding the text, and a getTranscript of that id by the
    same session returns that row with that text. *)
Theorem accepted_save_can_be_read_back
    (env : Env) (req : SaveRequest) (db : Db) (text owner : string) (user : User)
    (clk : Clock) (cache : gmap string CacheEntry) :
  transcript req = Some text -> truthy text = true ->
  userId req = Some owner -> truthy owner = true ->
  session env = inr (Some user) -> uid user = owner ->
  (forall k, (k < 4)%nat -> faults env (requests db + k) = None) ->
  (forall r, In r (transcripts db) -> tid r <> uuid env (requests db)) ->
  (forall c, In c (transcript_contents db) ->
             cid c <> uuid env (requests db + 1) /\
             transcript_id c <> uuid env (requests db)) ->
  cache !! uuid env (requests db) = None ->
  let newId := uuid env (requests db) in
  let newRow :=
    mkTranscriptRow newId owner (or_else (req_title req) "New Transcript") false
                    (now env (requests db)) (now env (requests db))
                    (or_else (language req) "en-US") in
  let db' := fst (POST env req db) in
  snd (POST env req db) =
    mkResponse 200 (SavedBody "Transcript saved successfully" newId) /\
  transcripts db' = (transcripts db ++ [newRow])%list /\
  transcript_contents db' =
    (transcript_contents db ++
     [mkContentRow (uuid env (requests db + 1)) newId text
                   (now env (requests db + 1))])%list /\
  snd (getTranscript env clk newId (mkState cache db')) =
    Returned (mkPayload newRow text).
Proof.
  intros Ht Htt Hu Hut Hs Hid Hfaults Hfresh Hcfresh Hcache. cbn zeta.
  rewrite !Nat.add_1_r. rewrite Nat.add_1_r in Hcfresh.
  pose proof (auth_uid_session env user Hs) as Hauth. rewrite Hid in Hauth.
  assert (F0 : faults env (requests db) = None)
    by (rewrite <- (Nat.add_0_r (requests db)); apply Hfaults; lia).
  assert (F1 : faults env (S (requests db)) = None)
    by (rewrite <- Nat.add_1_r; apply Hfaults; lia).
  assert (F2 : faults env (S (S (requests db))) = None)
    by (replace (S (S (requests db))) with (requests db + 2)%nat by lia;
        apply Hfaults; lia).
  assert (F3 : faults env (S (S (S (requests db)))) = None)
    by (replace (S (S (S (requests db)))) with (requests db + 3)%nat by lia;
        apply Hfaults; lia).
  set (newId := uuid env (requests db)).
  set (newRow := mkTranscriptRow newId owner (or_else (req_title req) "New Transcript")
                   false (now env (requests db)) (now env (requests db))
                   (or_else (language req) "en-US")).
  assert (Hown : owns env newRow = true)
    by (unfold owns; by apply bool_decide_eq_true).
  set (newContent := mkContentRow (uuid env (S (requests db))) newId text
                       (now env (S (requests db)))).
  assert (Howc : forall d, transcripts d = (transcripts db ++ [newRow])%list ->
                   owns_content env d newContent = true).
  { intros d Hd. unfold owns_content. apply existsb_exists. exists newRow. split.
    - rewrite Hd. apply in_or_app. right. by left.
    - cbn [tid newRow transcript_id newContent]. by rewrite String.eqb_refl, Hown. }
  assert (Hins : insert_transcript env (or_else (req_title req) "New Transcript") owner
                   (or_else (language req) "en-US") db
                 = (mkDb (transcripts db ++ [newRow]) (transcript_contents db)
                         (S (requests db)), inr newId)).
  { unfold insert_transcript, statement. rewrite F0. cbn [tick requests pred].
    fold newId. fold newRow. rewrite Hown. cbn [negb].
    rewrite existsb_none; [done|].
    intros r Hr. apply String.eqb_neq. by apply Hfresh. }
  assert (Hcon : insert_content env newId text
                   (mkDb (transcripts db ++ [newRow]) (transcript_contents db)
                         (S (requests db)))
                 = (mkDb (transcripts db ++ [newRow])
                         (transcript_contents db ++ [newContent])
                         (S (S (requests db))), inr tt)).
  { unfold insert_content, statement. cbn [requests]. rewrite F1.
    cbn [tick requests pred transcripts transcript_contents].
    fold newContent.
    match goal with |- context [owns_content env ?d newContent] =>
      rewrite (Howc d eq_refl)
    end.
    cbn [negb]. rewrite existsb_none; [done|].
    intros c Hc. apply String.eqb_neq. by apply Hcfresh. }
  assert (Hpost : POST env req db =
            (mkDb (transcripts db ++ [newRow]) (transcript_contents db ++ [newContent])
                  (S (S (requests db))),
             mkResponse 200 (SavedBody "Transcript saved successfully" newId))).
  { unfold POST. rewrite Ht, Htt, Hu, Hut, Hs, Hid, String.eqb_refl. cbn [negb].
    by rewrite Hins, Hcon. }
  rewrite Hpost. cbn [fst snd]. split; [done|]. split; [done|]. split; [done|].
  unfold getTranscript. cbn [transcriptCache]. fold newId in Hcache. rewrite Hcache.
  unfold fetchTranscript. cbn [CachedService.db transcriptCache].
  assert (Hsel : select_transcript env newId
                   (mkDb (transcripts db ++ [newRow])
                         (transcript_contents db ++ [newContent]) (S (S (requests db))))
                 = (mkDb (transcripts db ++ [newRow])
                         (transcript_contents db ++ [newContent])
                         (S (S (S (requests db)))), inr newRow)).
  { unfold select_transcript, statement. cbn [requests]. rewrite F2.
    cbn [tick requests transcripts transcript_contents].
    rewrite List.filter_app, filter_none.
    - cbn [List.filter app tid newRow]. by rewrite String.eqb_refl, Hown.
    - intros r Hr. apply andb_false_iff. left. apply String.eqb_neq. by apply Hfresh. }
  rewrite Hsel.
  assert (Hselc : select_content env newId
                   (mkDb (transcripts db ++ [newRow])
                         (transcript_contents db ++ [newContent])
                         (S (S (S (requests db)))))
                 = (mkDb (transcripts db ++ [newRow])
                         (transcript_contents db ++ [newContent])
                         (S (S (S (S (requests db))))), inr text)).
  { unfold select_content, statement. cbn [requests]. rewrite F3.
    cbn [tick requests transcripts transcript_contents].
    rewrite List.filter_app, filter_none.
    - cbn [List.filter app transcript_id newContent]. rewrite String.eqb_refl.
      match goal with |- context [owns_content env ?d newContent] =>
        by rewrite (Howc d eq_refl)
      end.
    - intros c Hc. apply andb_false_iff. left. apply String.eqb_neq. by apply Hcfresh. }
  by rewrite Hselc.
Qed.

Lemma accepted_save_can_be_read_back_witness :
  snd (POST healthy helloRequest emptyDb) =
    mkResponse 200 (SavedBody "Transcript saved successfully" "row-0") /\
  exists p,
    snd (getTranscript healthy (clockAt 5) "row-0"
           (mkState ∅ (fst (POST healthy helloRequest emptyDb)))) = Returned p /\
    payload_content p = "hello world".
Proof.
  destruct (accepted_save_can_be_read_back healthy helloRequest emptyDb
              "hello world" "u1" (mkUser "u1" "u1@example.org") (clockAt 5) ∅)
    as (H1 & _ & _ & H4); try reflexivity; try done.
  split; [exact H1|]. eexists. split; [exact H4 | reflexivity].
Defined.

End EndToEndFacts.

(** ** How the recorder takes the endpoint's answers *)

Module AnswerFacts.
Import JS JSFacts Remote SaveRoute Wire Samples.

Lemma includes_after (p m sub : string) :
  includes m sub = true -> includes (p ++ m) sub = true.
Proof.
  intros H. induction p as [|a p IH]; [done|].
  change (String a p ++ m)%string with (String a (p ++ m)).
  cbn [includes]. rewrite IH. apply orb_true_r.
Qed.

Lemma isAuthFailure_after (p m : string) :
  Recorder.isAuthFailure m = true -> Recorder.isAuthFailure (p ++ m) = true.
Proof.
  unfold Recorder.isAuthFailure. rewrite !orb_true_iff.
  intros [[[H|H]|H]|H]; apply (includes_after p) in H; tauto.
Qed.

Lemma includes_nonempty (m sub : string) :
  includes m sub = true -> truthy sub = true -> truthy m = true.
Proof. destruct m; [by destruct sub | done]. Qed.

(** The recorder classifies the endpoint's refusals by the text of their
    message, not by their status. For a well-formed request: the 401 for a
    missing session stops the retry loop, and so does the 500 for a session
    that could not be read when the error's message carries one of the phrases
    the loop looks for (as "Auth session missing!" does); the 401 for an
    invalid or expired token, the 403 for a session error with code 42501 and
    the 403 for a userId other than the session's user carry messages the loop
    does not recognise, and are retried like a network failure. *)
Theorem refusals_are_classified_by_message
    (env : Env) (req : SaveRequest) (db : Db) (text owner : string) :
  transcript req = Some text -> truthy text = true ->
  userId req = Some owner -> truthy owner = true ->
  (session env = inr None ->
   status (snd (POST env req db)) = 401%nat /\
   Recorder.authFailure (fetchOutcomeOf (snd (POST env req db)))) /\
  (forall e, session env = inl e -> code e <> "42501" ->
     includes (message e) "JWT" = false ->
     Recorder.isAuthFailure (message e) = true ->
     status (snd (POST env req db)) = 500%nat /\
     Recorder.rejected (fetchOutcomeOf (snd (POST env req db)))
       = Some ("Failed to authenticate user: " ++ message e)%string /\
     Recorder.authFailure (fetchOutcomeOf (snd (POST env req db)))) /\
  (forall e, session env = inl e -> code e <> "42501" ->
     includes (message e) "JWT" = true ->
     status (snd (POST env req db)) = 401%nat /\
     Recorder.rejected (fetchOutcomeOf (snd (POST env req db)))
       = Some "Invalid or expired authentication token" /\
     Recorder.transientFailure (fetchOutcomeOf (snd (POST env req db)))) /\
  (forall e, session env = inl e -> code e = "42501" ->
     status (snd (POST env req db)) = 403%nat /\
     Recorder.transientFailure (fetchOutcomeOf (snd (POST env req db)))) /\
  (forall user, session env = inr (Some user) -> uid user <> owner ->
     status (snd (POST env req db)) = 403%nat /\
     Recorder.transientFailure (fetchOutcomeOf (snd (POST env req db)))).
Proof.
  intros Ht Htt Hu Hut. unfold POST. rewrite Ht, Htt, Hu, Hut. cbn [negb].
  split; [|split; [|split; [|split]]].
  - intros ->. split; [done|].
    exists "You must be logged in to save transcripts". by split.
  - intros e -> Hcode Hjwt Hauth. unfold handleApiError.
    apply String.eqb_neq in Hcode. rewrite Hcode, Hjwt.
    assert (Hm : truthy (message e) = true).
    { unfold Recorder.isAuthFailure in Hauth. rewrite !orb_true_iff in Hauth.
      destruct Hauth as [[[H|H]|H]|H]; by apply (includes_nonempty _ _ H). }
    rewrite Hm. split; [done|]. split; [done|].
    exists ("Failed to authenticate user: " ++ message e)%string. split; [done|].
    apply (isAuthFailure_after "Failed to authenticate user: " (message e) Hauth).
  - intros e -> Hcode Hjwt. unfold handleApiError.
    apply String.eqb_neq in Hcode. rewrite Hcode, Hjwt. split; [done|]. split; [done|].
    exists "Invalid or expired authentication token". by split.
  - intros e -> Hcode. unfold handleApiError.
    apply String.eqb_eq in Hcode. rewrite Hcode. split; [done|].
    exists "Permission denied. Check your RLS policies.". by split.
  - intros user -> Hne. apply String.eqb_neq in Hne. rewrite Hne. split; [done|].
    exists "User ID mismatch. You can only create transcripts for your own account.".
    by split.
Qed.

Lemma refusals_are_classified_by_message_witness :
  status (snd (POST sessionMissing helloRequest emptyDb)) = 500%nat /\
  Recorder.authFailure (fetchOutcomeOf (snd (POST sessionMissing helloRequest emptyDb))) /\
  Recorder.transientFailure (fetchOutcomeOf (snd (POST otherUser helloRequest emptyDb))).
Proof.
  destruct (refusals_are_classified_by_message sessionMissing helloRequest emptyDb
              "hello world" "u1") as (_ & Hmissing & _); try reflexivity.
  destruct (refusals_are_classified_by_message otherUser helloRequest emptyDb
              "hello world" "u1") as (_ & _ & _ & _ & Hother); try reflexivity.
  destruct (Hmissing (mkPgError "" "Auth session missing!")) as (H500 & _ & Hauth);
    [reflexivity | discriminate | reflexivity | reflexivity |].
  split; [exact H500|]. split; [exact Hauth|].
  apply (Hother (mkUser "u2" "u2@example.org")); [reflexivity | discriminate].
Defined.

End AnswerFacts.

(** ** The uncached service over the hosted store *)

Module TranscriptServiceFacts.
Import JS JSFacts Remote RemoteFacts TranscriptService Samples.

Lemma update_transcript_run env i change db :
  faults env (requests db) = None ->
  update_transcript env i change db =
    (mkDb (map (fun r => if String.eqb (tid r) i && owns env r then change r else r)
               (transcripts db))
          (transcript_contents db) (S (requests db)),
     inr tt).
Proof. intros Hf. unfold update_transcript, statement. by rewrite Hf. Qed.

Lemma owns_set_is_deleted env b at_ r : owns env (set_is_deleted b at_ r) = owns env r.
Proof. reflexivity. Qed.

(** restoreTranscript undoes softDeleteTranscript: on a store that answers,
    soft-deleting and then restoring an id both report success, and leave
    every row and every content row as before, but for the rows of that id
    that the caller owns: these are active again and carry the instant of the
    restore as updated_at. *)
Theorem restoreTranscript_undoes_softDelete
    (env : Env) (at1 at2 : Z) (i : string) (db : Db) :
  faults env (requests db) = None ->
  faults env (S (requests db)) = None ->
  let deleted := softDeleteTranscript env at1 i db in
  let restored := restoreTranscript env at2 i (fst deleted) in
  snd deleted = true /\ snd restored = true /\
  (forall r, In r (transcripts (fst deleted)) ->
             tid r = i -> owns env r = true -> is_deleted r = true) /\
  transcripts (fst restored) =
    map (fun r => if String.eqb (tid r) i && owns env r
                  then set_is_deleted false at2 r else r)
        (transcripts db) /\
  transcript_contents (fst restored) = transcript_contents db.
Proof.
  intros F0 F1. cbn zeta. unfold softDeleteTranscript, restoreTranscript.
  rewrite (update_transcript_run _ _ _ _ F0). cbn [fst snd].
  rewrite update_transcript_run by done. cbn [fst snd succeeded transcripts
    transcript_contents].
  split; [done|]. split; [done|]. split; [|split; [|done]].
  - intros r (r0 & <- & Hr0)%in_map_iff Hid Hown.
    destruct (String.eqb (tid r0) i && owns env r0) eqn:Hc; [done|].
    apply String.eqb_eq in Hid. rewrite Hid, Hown in Hc. done.
  - rewrite map_map. apply map_ext. intros r.
    destruct (String.eqb (tid r) i && owns env r) eqn:Hc.
    + cbn [tid set_is_deleted]. rewrite owns_set_is_deleted, Hc. done.
    + by rewrite Hc.
Qed.

Lemma restoreTranscript_undoes_softDelete_witness :
  transcripts
    (fst (restoreTranscript healthy 7 "t1"
            (fst (softDeleteTranscript healthy 6 "t1" (CachedService.db cachedNote)))))
  = [set_is_deleted false 7 noteRow].
Proof.
  destruct (restoreTranscript_undoes_softDelete healthy 6 7 "t1"
              (CachedService.db cachedNote)) as (_ & _ & _ & H & _);
    [reflexivity | reflexivity |].
  exact H.
Defined.

(** permanentlyDeleteTranscript by the owner removes the row and, by the
    cascade, every content row of it: on a store that answers, for an id that
    exists and whose rows the caller owns, no transcript row and no content row
    of that id is left, and the rows of every other id are all kept. *)
Theorem permanentlyDeleteTranscript_cascades (env : Env) (i : string) (db : Db) :
  faults env (requests db) = None ->
  (exists r, In r (transcripts db) /\ tid r = i) ->
  (forall r, In r (transcripts db) -> tid r = i -> owns env r = true) ->
  snd (permanentlyDeleteTranscript env i db) = true /\
  transcripts (fst (permanentlyDeleteTranscript env i db)) =
    List.filter (fun r => negb (String.eqb (tid r) i)) (transcripts db) /\
  transcript_contents (fst (permanentlyDeleteTranscript env i db)) =
    List.filter (fun c => negb (String.eqb (transcript_id c) i)) (transcript_contents db).
Proof.
  intros F0 (r0 & Hr0 & Hid0) Hown.
  unfold permanentlyDeleteTranscript, delete_transcript, statement. rewrite F0.
  cbn [fst snd succeeded tick transcripts transcript_contents requests].
  split; [done|]. split.
  - apply List.filter_ext_in. intros r Hr. rewrite andb_true_r.
    destruct (String.eqb_spec (tid r) i) as [Heq|]; [|done].
    by rewrite (Hown r Hr Heq).
  - apply List.filter_ext_in. intros c Hc. f_equal.
    destruct (String.eqb_spec (transcript_id c) i) as [Heq|Hne].
    + apply existsb_exists. exists r0. split; [done|]. rewrite andb_true_r.
      rewrite (Hown r0 Hr0 Hid0), Hid0, Heq. by rewrite String.eqb_refl.
    + apply not_true_is_false. intros (r & Hr & Hhit)%existsb_exists.
      apply andb_true_iff in Hhit as [Hhit Htc].
      rewrite andb_true_r in Hhit. apply andb_true_iff in Hhit as [Hti _].
      apply String.eqb_eq in Hti, Htc. congruence.
Qed.

Lemma permanentlyDeleteTranscript_cascades_witness :
  transcripts (fst (permanentlyDeleteTranscript healthy "t1" (CachedService.db cachedNote)))
    = [] /\
  transcript_contents
    (fst (permanentlyDeleteTranscript healthy "t1" (CachedService.db cachedNote))) = [].
Proof.
  destruct (permanentlyDeleteTranscript_cascades healthy "t1" (CachedService.db cachedNote))
    as (_ & H1 & H2).
  - reflexivity.
  - exists noteRow. split; [by left | reflexivity].
  - intros r [<-|[]] _. reflexivity.
  - split; [exact H1 | exact H2].
Defined.

Lemma filter_map_comm {A} (p : A -> bool) (f : A -> A) l :
  (forall x, p (f x) = p x) -> List.filter p (map f l) = map f (List.filter p l).
Proof.
  intros Hf. induction l as [|x l IH]; simpl; [done|].
  rewrite Hf. destruct (p x); simpl; by rewrite IH.
Qed.

Lemma latest_step (rows : list ContentRow) (best : option ContentRow) b :
  fold_left
    (fun best c =>
       match best with
       | None => Some c
       | Some b => if (content_created_at b <? content_created_at c)%Z then Some c
                   else Some b
       end) rows best = Some b ->
  best = Some b \/ In b rows.
Proof.
  revert best. induction rows as [|c rows IH]; intros best; simpl; [by left|].
  intros H. apply IH in H as [H|H]; [|by right; right].
  destruct best as [b0|]; [|injection H as <-; right; by left].
  destruct (content_created_at b0 <? content_created_at c)%Z.
  - injection H as <-. right. by left.
  - by left.
Qed.

(** A row newer than all the others is the latest, wherever the others tie. *)
Lemma latest_app_newer (rows : list ContentRow) (n : ContentRow) :
  (forall c, In c rows -> (content_created_at c < content_created_at n)%Z) ->
  latest (rows ++ [n]) = Some n.
Proof.
  intros Hnew. unfold latest. rewrite fold_left_app. simpl.
  destruct (fold_left _ rows None) as [b|] eqn:Hb; [|done].
  apply latest_step in Hb as [Hb|Hb]; [done|].
  by rewrite (proj2 (Z.ltb_lt _ _) (Hnew b Hb)).
Qed.

(** An edit is read back, and nothing of the history is lost: on a store
    that answers, for a transcript the caller owns, saveTranscriptContent
    appends one content row and keeps all others, and, the new row being newer
    than the former revisions, getTranscriptWithContent then returns the row
    with its updated_at set and the new content. *)
Theorem saved_content_is_the_one_read_back
    (env : Env) (at_ : Z) (i content_ : string) (db : Db) (row : TranscriptRow) :
  (forall k, (k < 4)%nat -> faults env (requests db + k) = None) ->
  List.filter (fun r => String.eqb (tid r) i && owns env r) (transcripts db) = [row] ->
  (forall c, In c (transcript_contents db) -> cid c <> uuid env (S (requests db))) ->
  (forall c, In c (transcript_contents db) -> transcript_id c = i ->
             (content_created_at c < now env (S (requests db)))%Z) ->
  let saved := saveTranscriptContent env at_ i content_ db in
  snd saved = true /\
  transcript_contents (fst saved) =
    (transcript_contents db ++
     [mkContentRow (uuid env (S (requests db))) i content_ (now env (S (requests db)))])%list /\
  snd (getTranscriptWithContent env i (fst saved)) =
    Some (set_updated_at at_ row, content_).
Proof.
  intros Hfaults Hrow Hcid Hnewer. cbn zeta.
  assert (F0 : faults env (requests db) = None)
    by (rewrite <- (Nat.add_0_r (requests db)); apply Hfaults; lia).
  assert (F1 : faults env (S (requests db)) = None)
    by (rewrite <- Nat.add_1_r; apply Hfaults; lia).
  assert (F2 : faults env (S (S (requests db))) = None)
    by (replace (S (S (requests db))) with (requests db + 2)%nat by lia;
        apply Hfaults; lia).
  assert (F3 : faults env (S (S (S (requests db)))) = None)
    by (replace (S (S (S (requests db)))) with (requests db + 3)%nat by lia;
        apply Hfaults; lia).
  set (visible := fun r => String.eqb (tid r) i && owns env r).
  set (touch := fun r => if visible r then set_updated_at at_ r else r).
  set (rows1 := map touch (transcripts db)).
  set (newC := mkContentRow (uuid env (S (requests db))) i content_
                 (now env (S (requests db)))).
  assert (Hvis_touch : forall r, visible (touch r) = visible r).
  { intros r. unfold touch. destruct (visible r) eqn:Hv; [|done]. exact Hv. }
  assert (Hrows1 : List.filter visible rows1 = [set_updated_at at_ row]).
  { unfold rows1. rewrite (filter_map_comm _ _ _ Hvis_touch).
    fold visible in Hrow. rewrite Hrow. simpl. unfold touch.
    assert (visible row = true) as ->; [|done].
    assert (In row (List.filter visible (transcripts db))) as Hin
      by (rewrite Hrow; by left).
    by apply filter_In in Hin as [_ ?]. }
  assert (Hown1 : forall d c, transcripts d = rows1 -> transcript_id c = i ->
                              owns_content env d c = true).
  { intros d c Hd Hc. unfold owns_content. apply existsb_exists.
    exists (set_updated_at at_ row). rewrite Hd, Hc. split.
    - assert (In (set_updated_at at_ row) (List.filter visible rows1)) as Hin
        by (rewrite Hrows1; by left).
      by apply filter_In in Hin as [? _].
    - assert (In (set_updated_at at_ row) (List.filter visible rows1)) as Hin
        by (rewrite Hrows1; by left).
      by apply filter_In in Hin as [_ ?]. }
  assert (Hsave : saveTranscriptContent env at_ i content_ db =
            (mkDb rows1 (transcript_contents db ++ [newC]) (S (S (requests db))), true)).
  { unfold saveTranscriptContent. rewrite update_transcript_run by done.
    fold visible. fold touch. fold rows1.
    unfold insert_content, statement. cbn [requests]. rewrite F1.
    cbn [tick requests pred transcripts transcript_contents]. fold newC.
    match goal with |- context [owns_content env ?d newC] =>
      rewrite (Hown1 d newC eq_refl eq_refl)
    end.
    cbn [negb]. rewrite EndToEndFacts.existsb_none; [done|].
    intros c Hc. apply String.eqb_neq. by apply Hcid. }
  rewrite Hsave. cbn [fst snd]. split; [done|]. split; [done|].
  unfold getTranscriptWithContent, getTranscript.
  assert (Hsel : select_transcript env i
            (mkDb rows1 (transcript_contents db ++ [newC]) (S (S (requests db))))
          = (mkDb rows1 (transcript_contents db ++ [newC]) (S (S (S (requests db)))),
             inr (set_updated_at at_ row))).
  { unfold select_transcript, statement. cbn [requests]. rewrite F2.
    cbn [tick requests transcripts transcript_contents]. fold visible. by rewrite Hrows1. }
  rewrite Hsel.
  unfold select_latest_content, statement. cbn [requests]. rewrite F3.
  cbn [tick requests transcripts transcript_contents snd fst].
  rewrite List.filter_app. cbn [List.filter transcript_id newC].
  rewrite String.eqb_refl.
  match goal with |- context [owns_content env ?d newC] =>
    rewrite (Hown1 d newC eq_refl eq_refl)
  end.
  cbn [andb]. rewrite latest_app_newer; [done|].
  intros c [Hc Hv]%filter_In. apply andb_true_iff in Hv as [Hti _].
  apply String.eqb_eq in Hti. by apply Hnewer.
Qed.

Lemma saved_content_is_the_one_read_back_witness :
  snd (getTranscriptWithContent healthy "t1"
         (fst (saveTranscriptContent healthy 9 "t1" "new text" (CachedService.db cachedNote))))
  = Some (set_updated_at 9 noteRow, "new text").
Proof.
  destruct (saved_content_is_the_one_read_back healthy 9 "t1" "new text"
              (CachedService.db cachedNote) noteRow) as (_ & _ & H).
  - done.
  - reflexivity.
  - intros c [<-|[]]. discriminate.
  - intros c [<-|[]] _. cbn. lia.
  - exact H.
Defined.

(** A transcript that was just created reads back empty: on a store that
    answers, with a fresh identifier, createTranscript by a signed-in user
    returns the id of the one row it appends (owned by that user, active,
    language en-US), and getTranscriptWithContent of that id returns the row
    with the empty string as content, the missing revision being no error. *)
Theorem created_transcript_reads_back_empty
    (env : Env) (title_ : string) (db : Db) (user : User) :
  session env = inr (Some user) ->
  (forall k, (k < 3)%nat -> faults env (requests db + k) = None) ->
  (forall r, In r (transcripts db) -> tid r <> uuid env (requests db)) ->
  (forall c, In c (transcript_contents db) ->
             transcript_id c <> uuid env (requests db)) ->
  let newId := uuid env (requests db) in
  let newRow := mkTranscriptRow newId (uid user) title_ false
                                (now env (requests db)) (now env (requests db)) "en-US" in
  snd (createTranscript env title_ db) = Some newId /\
  transcripts (fst (createTranscript env title_ db)) = (transcripts db ++ [newRow])%list /\
  transcript_contents (fst (createTranscript env title_ db)) = transcript_contents db /\
  snd (getTranscriptWithContent env newId (fst (createTranscript env title_ db))) =
    Some (newRow, "").
Proof.
  intros Hs Hfaults Hfresh Hnocontent. cbn zeta.
  assert (F0 : faults env (requests db) = None)
    by (rewrite <- (Nat.add_0_r (requests db)); apply Hfaults; lia).
  assert (F1 : faults env (S (requests db)) = None)
    by (rewrite <- Nat.add_1_r; apply Hfaults; lia).
  assert (F2 : faults env (S (S (requests db))) = None)
    by (replace (S (S (requests db))) with (requests db + 2)%nat by lia;
        apply Hfaults; lia).
  set (newId := uuid env (requests db)).
  set (newRow := mkTranscriptRow newId (uid user) title_ false
                   (now env (requests db)) (now env (requests db)) "en-US").
  assert (Hown : owns env newRow = true).
  { unfold owns. rewrite (EndToEndFacts.auth_uid_session _ _ Hs).
    by apply bool_decide_eq_true. }
  assert (Hcreate : createTranscript env title_ db =
            (mkDb (transcripts db ++ [newRow]) (transcript_contents db)
                  (S (requests db)), Some newId)).
  { unfold createTranscript. rewrite Hs. unfold insert_transcript, statement.
    rewrite F0. cbn [tick requests pred transcripts transcript_contents].
    fold newId. fold newRow. rewrite Hown. cbn [negb].
    rewrite EndToEndFacts.existsb_none; [done|].
    intros r Hr. apply String.eqb_neq. intros Heq. apply (Hfresh r Hr).
    by rewrite Heq. }
  rewrite Hcreate. cbn [fst snd transcripts transcript_contents].
  split; [done|]. split; [done|]. split; [done|].
  unfold getTranscriptWithContent, getTranscript, select_transcript, statement.
  cbn [requests]. rewrite F1. cbn [tick requests transcripts transcript_contents].
  rewrite List.filter_app.
  rewrite (EndToEndFacts.filter_none _ (transcripts db)).
  2:{ intros r Hr. apply andb_false_iff. left. apply String.eqb_neq. by apply Hfresh. }
  cbn [List.filter app]. change (tid newRow) with newId.
  rewrite String.eqb_refl, Hown. cbn [andb single].
  unfold select_latest_content, statement.
  cbn [tick requests transcripts transcript_contents]. rewrite F2.
  cbn [tick requests transcripts transcript_contents snd fst].
  rewrite EndToEndFacts.filter_none; [done|].
  intros c Hc. apply andb_false_iff. left. apply String.eqb_neq. by apply Hnocontent.
Qed.

Lemma created_transcript_reads_back_empty_witness :
  snd (getTranscriptWithContent healthy "row-0"
         (fst (createTranscript healthy "Notes" emptyDb)))
  = Some (mkTranscriptRow "row-0" "u1" "Notes" false
            (now healthy 0) (now healthy 0) "en-US", "").
Proof.
  destruct (created_transcript_reads_back_empty healthy "Notes" emptyDb
              (mkUser "u1" "u1@example.org")) as (_ & _ & _ & H).
  - reflexivity.
  - done.
  - intros r [].
  - intros c [].
  - exact H.
Defined.

End TranscriptServiceFacts.

(** ** The read-through cache: repeated reads, deleted and edited transcripts *)

Module CachedServiceMoreFacts.
Import JS JSFacts Remote RemoteFacts TranscriptService CachedService CachedServiceFacts
       Samples.

Lemma prefix_append (p x : string) : String.prefix p (p ++ x) = true.
Proof.
  induction p as [|a p IH]; simpl; [by destruct x|].
  destruct (ascii_dec a a); [done | congruence].
Qed.

Lemma includes_prefix (p x : string) : includes (p ++ x) p = true.
Proof.
  pose proof (prefix_append p x) as H.
  remember (p ++ x)%string as s eqn:Hs. clear Hs.
  destruct s; cbn [includes]; by rewrite H.
Qed.

Lemma select_transcript_tables env i d :
  transcripts (fst (select_transcript env i d)) = transcripts d /\
  transcript_contents (fst (select_transcript env i d)) = transcript_contents d.
Proof.
  unfold select_transcript, statement. by destruct (faults env (requests d)).
Qed.

(** A fetched transcript is served from the cache for the next five minutes:
    after a getTranscript that had to read the store and returned, a second
    getTranscript of the id, looked up at most five minutes after the first was
    stored, returns the same payload without any statement, whatever the store
    then holds or answers. *)
Theorem fetched_transcript_is_served_from_cache
    (env env' : Env) (clk clk' : Clock) (i : string) (st : State) (p : Payload)
    (db' : Db) :
  (transcriptCache st !! i = None \/
   exists e, transcriptCache st !! i = Some e /\
             (atLookup clk - timestamp e > CACHE_TTL)%Z) ->
  snd (getTranscript env clk i st) = Returned p ->
  (atSweep clk i - atStore clk <= CACHE_TTL)%Z ->
  (atLookup clk' - atStore clk <= CACHE_TTL)%Z ->
  let cached := mkState (transcriptCache (fst (getTranscript env clk i st))) db' in
  getTranscript env' clk' i cached = (cached, Returned p).
Proof.
  intros Hmiss Hret Hsweep Hlook. cbn zeta.
  rewrite (getTranscript_miss _ _ _ _ Hmiss) in *. unfold fetchTranscript in *.
  destruct (select_transcript env i (db st)) as [db1 [e1|t]]; [done|].
  destruct (select_content env i db1) as [db2 [e2|c]]; [done|].
  cbn [fst snd] in *. injection Hret as <-.
  apply (getTranscript_hit env' clk' i _ (mkCacheEntry (mkPayload t c) (atStore clk)));
    [|done].
  cbn [transcriptCache]. apply clearExpiredCache_lookup. split; [|done].
  apply lookup_insert_eq.
Qed.

Lemma fetched_transcript_is_served_from_cache_witness :
  snd (getTranscript offline_store (clockAt 300006) "t1"
         (mkState (transcriptCache (fst (getTranscript healthy (clockAt 300001) "t1"
                                           cachedNote)))
                  emptyDb))
  = Returned notePayload.
Proof.
  rewrite (fetched_transcript_is_served_from_cache healthy offline_store
             (clockAt 300001) (clockAt 300006) "t1" cachedNote notePayload emptyDb).
  - reflexivity.
  - right. exists (mkCacheEntry notePayload 0). split; [reflexivity|].
    simpl. unfold CACHE_TTL. lia.
  - reflexivity.
  - simpl. unfold CACHE_TTL. lia.
  - simpl. unfold CACHE_TTL. lia.
Defined.

(** After deleteTranscript has returned, the transcript cannot be fetched: a
    getTranscript of the id by the same session finds neither a cache entry
    nor a row, and throws. *)
Theorem deleted_transcript_cannot_be_fetched
    (env : Env) (clk : Clock) (i : string) (st : State) (b : bool) :
  snd (deleteTranscript env i st) = Returned b ->
  exists m,
    snd (getTranscript env clk i (fst (deleteTranscript env i st))) = Thrown m /\
    includes m "Failed to fetch transcript: " = true.
Proof.
  unfold deleteTranscript.
  destruct (session env) as [e|[user|]] eqn:Hs; [done| |done].
  destruct (delete_contents env i (db st)) as [db1 [e1|[]]] eqn:Hdc; [done|].
  destruct (delete_transcript env i (Some (uid user)) db1) as [db2 [e2|[]]] eqn:Hdt;
    [done|].
  cbn [fst snd]. intros _.
  rewrite getTranscript_miss by (left; apply lookup_delete_eq).
  unfold fetchTranscript. cbn [db transcriptCache].
  assert (Hnone : List.filter (fun r => String.eqb (tid r) i && owns env r)
                              (transcripts db2) = []).
  { unfold delete_transcript, statement in Hdt.
    destruct (faults env (requests db1)); [done|]. injection Hdt as <-.
    cbn [transcripts tick]. apply EndToEndFacts.filter_none.
    intros r [Hr Hkept]%filter_In. apply negb_true_iff in Hkept.
    destruct (String.eqb (tid r) i) eqn:Hti; [|done].
    destruct (owns env r) eqn:Hown; [|done]. exfalso.
    cbn [andb] in Hkept. apply String.eqb_neq in Hkept. apply Hkept.
    unfold owns in Hown. apply bool_decide_eq_true in Hown.
    rewrite (EndToEndFacts.auth_uid_session env user Hs) in Hown. congruence. }
  unfold select_transcript, statement.
  destruct (faults env (requests db2)) as [e|].
  - eexists. split; [reflexivity|]. apply includes_prefix.
  - cbn [tick transcripts]. rewrite Hnone. cbn [single]. eexists.
    split; [reflexivity|]. apply includes_prefix.
Qed.

Lemma deleted_transcript_cannot_be_fetched_witness :
  exists m,
    snd (getTranscript healthy (clockAt 5) "t1"
           (fst (deleteTranscript healthy "t1" cachedNote))) = Thrown m.
Proof.
  destruct (deleted_transcript_cannot_be_fetched healthy (clockAt 5) "t1" cachedNote true)
    as (m & Hm & _); [reflexivity|].
  by exists m.
Defined.

(** getTranscript reads the content with [.single()]: on a miss it throws
    unless exactly one content revision of the id is visible. A transcript
    without content, and one that was edited (two revisions or more), cannot be
    fetched through the caching service. *)
Theorem getTranscript_needs_exactly_one_revision
    (env : Env) (clk : Clock) (i : string) (st : State) :
  transcriptCache st !! i = None ->
  length (List.filter
            (fun c => String.eqb (transcript_id c) i && owns_content env (db st) c)
            (transcript_contents (db st))) <> 1%nat ->
  exists m,
    snd (getTranscript env clk i st) = Thrown m /\
    transcriptCache (fst (getTranscript env clk i st)) = transcriptCache st.
Proof.
  intros Hmiss Hcount. rewrite getTranscript_miss by (by left). unfold fetchTranscript.
  destruct (select_transcript_tables env i (db st)) as [Ht Hc].
  destruct (select_transcript env i (db st)) as [db1 [e1|t]]; [by eexists|].
  cbn [fst] in Ht, Hc.
  unfold select_content, statement. destruct (faults env (requests db1)); [by eexists|].
  cbn [tick transcript_contents].
  assert (Hsame : List.filter
            (fun c => String.eqb (transcript_id c) i &&
                      owns_content env (mkDb (transcripts db1) (transcript_contents db1)
                                             (S (requests db1))) c)
            (transcript_contents db1)
          = List.filter
            (fun c => String.eqb (transcript_id c) i && owns_content env (db st) c)
            (transcript_contents (db st))).
  { rewrite Hc. apply List.filter_ext. intros c. unfold owns_content. cbn [transcripts].
    by rewrite Ht. }
  unfold tick. rewrite Hsame.
  destruct (List.filter _ (transcript_contents (db st))) as [|c [|c' l]];
    [by eexists | done | by eexists].
Qed.

Lemma getTranscript_needs_exactly_one_revision_witness :
  exists m,
    snd (getTranscript healthy (clockAt 5) "t1"
           (mkState ∅ (fst (saveTranscriptContent healthy 9 "t1" "new text"
                              (db cachedNote))))) = Thrown m.
Proof.
  destruct (getTranscript_needs_exactly_one_revision healthy (clockAt 5) "t1"
              (mkState ∅ (fst (saveTranscriptContent healthy 9 "t1" "new text"
                                 (db cachedNote))))) as (m & Hm & _).
  - reflexivity.
  - vm_compute. discriminate.
  - by exists m.
Defined.

End CachedServiceMoreFacts.

(** ** The request middleware *)

Module MiddlewareFacts.
Import JS Middleware.

Lemma startsWith_append (p rest : string) : startsWith (p ++ rest) p = true.
Proof. apply CachedServiceMoreFacts.prefix_append. Qed.

(** Without a signed-in user every path under /dashboard and /profile, and
    every path under /transcripts but those under /transcripts/public, is
    answered with a redirect to /login that records the path asked for; the
    paths under /transcripts/public are let through. *)
Theorem protected_paths_redirect_to_login (rate : RateLimit) (rest : string) :
  rate <> Verdict false ->
  middleware rate ("/dashboard" ++ rest) None
    = Redirect "/login" (Some ("/dashboard" ++ rest)) /\
  middleware rate ("/profile" ++ rest) None
    = Redirect "/login" (Some ("/profile" ++ rest)) /\
  (startsWith ("/transcripts" ++ rest) "/transcripts/public" = false ->
   middleware rate ("/transcripts" ++ rest) None
     = Redirect "/login" (Some ("/transcripts" ++ rest))) /\
  middleware rate ("/transcripts/public" ++ rest) None = Next None.
Proof.
  intros Hrate.
  assert (Hrun : forall pathname user,
    middleware rate pathname user = middleware NotConfigured pathname user).
  { intros. destruct rate as [| |[|]]; done. }
  rewrite !Hrun. unfold middleware, isAccessingProtectedRoutes.
  split; [|split; [|split]].
  - by rewrite (startsWith_append "/dashboard" rest).
  - rewrite (startsWith_append "/profile" rest). cbn [String.eqb signedIn andb negb].
    by rewrite orb_true_r.
  - intros Hpub. rewrite (startsWith_append "/transcripts" rest), Hpub.
    cbn [String.eqb signedIn andb negb]. by rewrite !orb_true_r.
  - pose proof (startsWith_append "/transcripts/public" rest) as Hpub.
    assert (Htr : startsWith ("/transcripts/public" ++ rest) "/transcripts" = true)
      by (apply (startsWith_append "/transcripts" ("/public" ++ rest))).
    rewrite Hpub, Htr. reflexivity.
Qed.

Lemma protected_paths_redirect_to_login_witness :
  middleware LimiterFailed "/transcripts/42" None
    = Redirect "/login" (Some "/transcripts/42").
Proof.
  destruct (protected_paths_redirect_to_login LimiterFailed "/42") as (_ & _ & H & _);
    [discriminate|].
  apply H. reflexivity.
Defined.

(** The middleware never redirects in a circle: where it redirects, the
    target is /dashboard for a signed-in user and /login for an anonymous one,
    and the same user asking for the target is let through. *)
Theorem redirect_target_is_let_through
    (rate rate' : RateLimit) (pathname to : string) (from : option string)
    (user : option Remote.User) :
  middleware rate pathname user = Redirect to from ->
  rate' <> Verdict false ->
  (to = if signedIn user then "/dashboard" else "/login") /\
  exists headers, middleware rate' to user = Next headers.
Proof.
  intros Hred Hrate'.
  assert (Hrun : forall p u, middleware rate' p u = middleware NotConfigured p u).
  { intros. destruct rate' as [| |[|]]; done. }
  rewrite Hrun. unfold middleware in Hred.
  assert (Hto : to = if signedIn user then "/dashboard" else "/login").
  { destruct rate as [| |[|]]; try done;
      destruct (String.eqb pathname "/" && signedIn user) eqn:H1;
      try (apply andb_true_iff in H1 as [_ ->]; by injection Hred as <- _);
      destruct (isAccessingProtectedRoutes pathname && negb (signedIn user)) eqn:H2;
      try (apply andb_true_iff in H2 as [_ H2]; apply negb_true_iff in H2; rewrite H2;
           by injection Hred as <- _);
      destruct (isAccessingAuthRoutes pathname && signedIn user) eqn:H3;
      try (apply andb_true_iff in H3 as [_ ->]; by injection Hred as <- _);
      done. }
  split; [done|]. rewrite Hto. destruct user as [u|]; by eexists.
Qed.

Lemma redirect_target_is_let_through_witness :
  exists headers, middleware NotConfigured "/login" None = Next headers.
Proof.
  destruct (redirect_target_is_let_through NotConfigured NotConfigured "/profile"
              "/login" (Some "/profile") None) as [_ H];
    [reflexivity | discriminate | exact H].
Defined.

End MiddlewareFacts.

(** ** The trash view: batch operations *)

Module TrashViewFacts.
Import JS JSFacts LocalStore LocalStoreFacts LocalStoreMoreFacts TrashView.

Lemma filter_filter {A} (p q : A -> bool) l :
  List.filter q (List.filter p l) = List.filter (fun x => p x && q x) l.
Proof.
  induction l as [|x l IH]; simpl; [done|].
  destruct (p x); simpl; [destruct (q x); by rewrite IH | done].
Qed.

Lemma handlePermanentDeleteTranscript_storage i v :
  parsed (storage (handlePermanentDeleteTranscript i v)) =
  List.filter (fun t => negb (hasId i t)) (parsed (storage v)).
Proof.
  unfold handlePermanentDeleteTranscript.
  pose proof (permanentlyDelete_parsed i (storage v)) as H.
  destruct (permanentlyDelete i (storage v)) as [[|] ls]; exact H.
Qed.

Lemma batch_delete_storage ids v :
  parsed (storage (fold_left (fun acc i => handlePermanentDeleteTranscript i acc) ids v)) =
  List.filter (fun t => negb (existsb (String.eqb (id t)) ids)) (parsed (storage v)).
Proof.
  revert v. induction ids as [|i ids IH]; intros v; simpl.
  - symmetry. by apply filter_all.
  - rewrite IH, handlePermanentDeleteTranscript_storage, filter_filter.
    apply List.filter_ext. intros t. unfold hasId.
    by rewrite negb_orb.
Qed.

(** A confirmed batch delete removes from the local store exactly the
    records whose id is selected and keeps all others in their order; it
    empties the selection and closes with one notification that counts the
    selected ids (whether or not each was found). Declined, it changes
    nothing. *)
Theorem batch_delete_removes_selected (v : View) :
  selectedIds v <> [] ->
  let v' := handlePermanentDeleteSelected true v in
  parsed (storage v') =
    List.filter (fun t => negb (existsb (String.eqb (id t)) (selectedIds v)))
                (parsed (storage v)) /\
  selectedIds v' = [] /\
  last (toasts v') =
    Some (Recorder.mkToast Recorder.ToastSuccess
            (counted (length (selectedIds v)) "permanently deleted") None) /\
  handlePermanentDeleteSelected false v = v.
Proof.
  intros Hsel. cbn zeta. unfold handlePermanentDeleteSelected.
  destruct (selectedIds v) as [|i ids] eqn:Hids; [done|]. cbn [negb].
  change (Nat.ltb 0 (length (i :: ids))) with true. cbv iota.
  split; [|split; [|split; [|done]]].
  - cbn [clearSelection notify storage]. apply batch_delete_storage.
  - done.
  - cbn [clearSelection notify toasts]. apply last_snoc.
Qed.

Lemma batch_delete_removes_selected_witness :
  parsed (storage (handlePermanentDeleteSelected true
                     (mkView Samples.sampleStorage [] ["1700000000001"; "gone"])))
  = [Samples.sampleActive].
Proof.
  destruct (batch_delete_removes_selected
              (mkView Samples.sampleStorage [] ["1700000000001"; "gone"]))
    as (H & _); [discriminate|].
  rewrite H. reflexivity.
Defined.









Lemma unique_id_record (l : list SavedTranscript) t t' :
  NoDup (map id l) -> In t l -> In t' l -> id t = id t' -> t = t'.
Proof.
  intros Hnd Ht Ht' Hid.
  apply list_elem_of_In, list_elem_of_lookup_1 in Ht as [j Hj].
  apply list_elem_of_In, list_elem_of_lookup_1 in Ht' as [k Hk].
  assert (j = k) as -> by exact (unique_id_slot l j k t t' Hnd Hj Hk Hid).
  congruence.
Qed.







Lemma selected_ids_of_listing (q : SavedTranscript -> bool) l t :
  NoDup (map id l) -> In t l ->
  existsb (String.eqb (id t)) (map id (List.filter q l)) = q t.
Proof.
  intros Hnd Ht. destruct (q t) eqn:Hq.
  - apply existsb_exists. exists (id t). split; [|apply String.eqb_refl].
    apply in_map, filter_In. by split.
  - apply not_true_is_false. intros H.
    apply existsb_exists in H as (x & Hx & Heq).
    apply String.eqb_eq in Heq. subst x.
    apply in_map_iff in Hx as (t' & Hid & Ht').
    apply filter_In in Ht' as (Ht' & Hq').
    assert (t = t') as <- by (apply (unique_id_record l); done). congruence.
Qed.

(** Select all, then delete selected, empties the trash that is shown and
    nothing else: with distinct stored ids, the store keeps exactly the records
    that were not in the user's trash listing, so the trashed records of other
    users stay; for a listing without user filter the store is the one that
    emptyTrash leaves. *)
Theorem select_all_then_delete_empties_shown_trash (u : option string) (v : View) :
  NoDup (map id (parsed (storage v))) ->
  getTrashTranscripts u (storage v) <> [] ->
  let v1 := handleSelectAll true (getTrashTranscripts u (storage v)) v in
  let v' := handlePermanentDeleteSelected true v1 in
  getTrashTranscripts u (storage v') = [] /\
  (forall t, In t (parsed (storage v')) <->
             In t (parsed (storage v)) /\ ~ In t (getTrashTranscripts u (storage v))) /\
  (truthy_opt u = false ->
   parsed (storage v') = parsed (snd (emptyTrash (storage v)))).
Proof.
  intros Hnd Hshown. cbn zeta.
  set (q := fun t => if negb (isTrashed t) then false
                     else if truthy_opt u then ownedBy u t else true).
  assert (parsed (storage (handlePermanentDeleteSelected true
            (handleSelectAll true (getTrashTranscripts u (storage v)) v)))
          = List.filter (fun t => negb (q t)) (parsed (storage v))) as Hstore.
  { unfold handlePermanentDeleteSelected, handleSelectAll.
    cbn [selectedIds storage toasts].
    destruct (map id (getTrashTranscripts u (storage v))) as [|i ids] eqn:Hids.
    { destruct (getTrashTranscripts u (storage v)); [done | discriminate]. }
    cbn [negb]. change (Nat.ltb 0 (length (i :: ids))) with true. cbv iota.
    cbn [clearSelection notify storage]. rewrite batch_delete_storage.
    cbn [storage]. rewrite <- Hids. apply List.filter_ext_in. intros t Ht.
    unfold getTrashTranscripts. by rewrite (selected_ids_of_listing _ _ t Hnd Ht). }
  split; [|split].
  - unfold getTrashTranscripts at 1. rewrite Hstore, filter_filter.
    apply EndToEndFacts.filter_none. intros t _.
    change (negb (q t) && q t = false). by destruct (q t).
  - intros t. rewrite Hstore. unfold getTrashTranscripts. rewrite !filter_In.
    change (In t (parsed (storage v)) /\ negb (q t) = true <->
            In t (parsed (storage v)) /\ ~ (In t (parsed (storage v)) /\ q t = true)).
    destruct (q t); simpl; intuition congruence.
  - intros Hu. rewrite Hstore. unfold emptyTrash.
    change (getAllTranscripts None (storage v)) with (parsed (storage v)).
    cbn [snd setItem parsed stored]. apply List.filter_ext. intros t.
    unfold q. rewrite Hu. by destruct (isTrashed t).
Qed.

Lemma select_all_then_delete_empties_shown_trash_witness :
  getTrashTranscripts (Some "bob")
    (storage (handlePermanentDeleteSelected true
                (handleSelectAll true (getTrashTranscripts (Some "bob")
                                         Samples.sampleStorage)
                   (mkView Samples.sampleStorage [] [])))) = [].
Proof.
  destruct (select_all_then_delete_empties_shown_trash (Some "bob")
              (mkView Samples.sampleStorage [] [])) as (H & _).
  - apply (bool_decide_unpack (NoDup (map id (parsed Samples.sampleStorage)))).
    vm_compute. exact I.
  - discriminate.
  - exact H.
Defined.

End TrashViewFacts.
